(** * Birthplace scraper (birth_places.py): model and properties

    A shallow embedding of [src/birth_places.py].  The third-party libraries
    the script calls (pandas, requests, BeautifulSoup) are not part of the
    repository; the parts of their behaviour the script relies on are written
    out below, each next to the call it stands for.

    Console output ([print]) is not recorded: no property below is about it. *)

From Stdlib Require Import String Ascii ZArith QArith Bool Lia List.
From Stdlib Require Import Permutation Sorted DecimalString Qround.
Import ListNotations.

Local Open Scope list_scope.
Local Open Scope string_scope.

(** ** Cell values and tables *)

(** What a cell of a pandas frame holds here: Python's [None], the float
    [nan], a string, or a finite number.  The script never does arithmetic
    on cell numbers, it only compares them, so a finite int64 or float64 is
    represented by the rational it denotes. *)
Inductive value : Type :=
| VNone
| VNaN
| VStr (s : string)
| VNum (q : Q).

(** [pd.isna] on a scalar. *)
Definition isna (v : value) : bool :=
  match v with
  | VNone | VNaN => true
  | VStr _ | VNum _ => false
  end.

(** A frame: its column labels and its rows, row-major.  Every row built by
    the functions below is as wide as [columns]. *)
Record DataFrame : Type := mkDF {
  columns : list string;
  data : list (list value)
}.

(** [pd.DataFrame()] *)
Definition empty_frame : DataFrame := mkDF [] [].

(** [len(df)] *)
Definition len (df : DataFrame) : nat := length (data df).

(** [df.empty]: true when either axis has length zero. *)
Definition empty (df : DataFrame) : bool :=
  (len df =? 0)%nat || (length (columns df) =? 0)%nat.

(** The value at row [i], column position [j]. *)
Definition cell (df : DataFrame) (i j : nat) : option value :=
  match nth_error (data df) i with
  | Some row => nth_error row j
  | None => None
  end.

(** A row as [iterrows] hands it out: a Series indexed by the labels. *)
Definition Series : Type := list (string * value).

Fixpoint series_lookup (key : string) (row : Series) : option value :=
  match row with
  | [] => None
  | (k, v) :: rest => if String.eqb k key then Some v else series_lookup key rest
  end.

(** [row.get(key, default)] *)
Definition row_get (row : Series) (key : string) (default : value) : value :=
  match series_lookup key row with
  | Some v => v
  | None => default
  end.

(** [df.iterrows()], the Series of each row in order. *)
Definition iterrows (df : DataFrame) : list Series :=
  map (fun r => combine (columns df) r) (data df).

(** ** Exceptions *)

Inductive exn : Type :=
| FileNotFoundError
| KeyError
| TypeError
| ValueError
| AttributeError
| InvalidIndexError
| RequestException.

Inductive result (A : Type) : Type :=
| Ok (a : A)
| Raise (e : exn).
Arguments Ok {A} a.
Arguments Raise {A} e.

(** ** Strings *)

Definition mem_str (s : string) (l : list string) : bool :=
  existsb (String.eqb s) l.

Fixpoint count_str (s : string) (l : list string) : nat :=
  match l with
  | [] => 0
  | c :: rest => (if String.eqb c s then 1 else 0) + count_str s rest
  end.

(** [s.replace(" ", "%20")]: the pattern is one character, so the
    replacement goes character by character. *)
Fixpoint replace_space (s : string) : string :=
  match s with
  | EmptyString => EmptyString
  | String c rest =>
      if Ascii.eqb c " "%char
      then "%20" ++ replace_space rest
      else String c (replace_space rest)
  end.

Definition lower_char (c : ascii) : ascii :=
  let n := nat_of_ascii c in
  if ((65 <=? n) && (n <=? 90))%nat then ascii_of_nat (n + 32) else c.

(** [s.lower()] on the ASCII letters. *)
Fixpoint lower (s : string) : string :=
  match s with
  | EmptyString => EmptyString
  | String c rest => String (lower_char c) (lower rest)
  end.

(** [str(n)] for a Python int. *)
Definition str_of_int (n : Z) : string :=
  NilZero.string_of_int (Z.to_int n).

(** [needle in s] *)
Definition contains (needle s : string) : bool :=
  match String.index 0 needle s with
  | Some _ => true
  | None => false
  end.

(** [str(classes)] for a list of class tokens.  A token holds no white
    space and is shown between single quotes. *)
Definition str_of_list (classes : list string) : string :=
  "[" ++ String.concat ", " (map (fun c => "'" ++ c ++ "'") classes) ++ "]".

(** ** Numeric coercion: [clean_dataframe] *)

Definition numeric_columns : list string :=
  [ "year_min"; "year_max"; "all_pros_first_team"; "pro_bowls";
    "years_as_primary_starter"; "career_av"; "g"; "pass_cmp"; "pass_att";
    "pass_yds"; "pass_td"; "pass_long"; "pass_int"; "pass_sacked";
    "pass_sacked_yds"; "rush_att"; "rush_yds"; "rush_td"; "rush_long";
    "rec"; "rec_yds"; "rec_td"; "rec_long";
    "# of Pros"; "# Active"; "# of HOF"; "G" ].

(** The text-to-number parser used for the examples further down: unsigned
    decimal integers. *)
Definition parse_decimal (s : string) : option Q :=
  match NilEmpty.uint_of_string s with
  | Some u => Some (inject_Z (Z.of_uint u))
  | None => None
  end.

Section Coercion.

(** pandas' reading of one string as a number; [None] when the string is
    not numeric. *)
Variable str_to_num : string -> option Q.

(** [pd.to_numeric(..., errors='coerce')] on one element. *)
Definition to_numeric_cell (v : value) : value :=
  match v with
  | VNone | VNaN => VNaN
  | VStr s =>
      match str_to_num s with
      | Some q => VNum q
      | None => VNaN
      end
  | VNum q => VNum q
  end.

(** Apply [f] at the positions of [row] labelled [col]. *)
Fixpoint apply_col (f : value -> value) (col : string)
         (cols : list string) (row : list value) : list value :=
  match cols, row with
  | c :: cs, v :: vs =>
      (if String.eqb c col then f v else v) :: apply_col f col cs vs
  | _, _ => row
  end.

(** One turn of the loop of [clean_dataframe]:
    [if col in df.columns: df[col] = pd.to_numeric(df[col], errors='coerce')].
    When the label occurs more than once [df[col]] is a frame and
    [pd.to_numeric] raises [TypeError]. *)
Definition coerce_column (df : DataFrame) (col : string) : result DataFrame :=
  if mem_str col (columns df) then
    if (1 <? count_str col (columns df))%nat then Raise TypeError
    else Ok (mkDF (columns df)
               (map (apply_col to_numeric_cell col (columns df)) (data df)))
  else Ok df.

Fixpoint coerce_columns (cols : list string) (df : DataFrame)
  : result DataFrame :=
  match cols with
  | [] => Ok df
  | col :: rest =>
      match coerce_column df col with
      | Ok df' => coerce_columns rest df'
      | Raise e => Raise e
      end
  end.

Definition clean_dataframe (df : DataFrame) : result DataFrame :=
  coerce_columns numeric_columns df.

End Coercion.

(** ** The page as BeautifulSoup presents it *)

Inductive cell_tag : Type := TH | TD.

(** A header cell: its [data-stat] attribute, if any, and
    [th.get_text(strip=True)]. *)
Record header_cell : Type := mkHeaderCell {
  data_stat : option string;
  header_text : string
}.

(** A body cell: its tag, the stripped text of its first link
    ([cell.find('a').get_text(strip=True)]) when it holds one, and
    [cell.get_text(strip=True)]. *)
Record body_cell : Type := mkCell {
  tag : cell_tag;
  link_text : option string;
  cell_text : string
}.

(** A [tr] of the body: [row.get('class', [])] and
    [row.find_all(['th', 'td'])]. *)
Record table_row : Type := mkRow {
  row_class : list string;
  cells : list body_cell
}.

(** The table with id [birthplaces]: the header row found by
    [table.find('thead').find('tr')] (outer [None]: no [thead]; inner
    [None]: no [tr] in it) and [tbody.find_all('tr')]. *)
Record html_table : Type := mkTable {
  thead : option (option (list header_cell));
  tbody : option (list table_row)
}.

(** What [requests.get] brings back: a failure of the request itself, or a
    response with its status code and the table
    [soup.find('table', {'id': 'birthplaces'})] of its parsed content. *)
Inductive http_reply : Type :=
| ConnectionFailed
| Response (status_code : Z) (soup_table : option html_table).

(** ** Effects *)

Inductive event : Type :=
| EvSleep (seconds : Z)
| EvGet (url : string)
| EvSave (filename : string) (df : DataFrame).

Definition trace : Type := list event.

(** A computation threads the trace of effects, may raise, and may fail to
    return within the fuel it was given ([None]). *)
Definition M (A : Type) : Type := trace -> option (result A * trace).

Definition ret {A : Type} (a : A) : M A := fun tr => Some (Ok a, tr).

Definition lift {A : Type} (r : result A) : M A := fun tr => Some (r, tr).

Definition emit (e : event) : M unit := fun tr => Some (Ok tt, (tr ++ [e])%list).

Definition out_of_fuel {A : Type} : M A := fun _ => None.

Definition bind {A B : Type} (m : M A) (k : A -> M B) : M B :=
  fun tr =>
    match m tr with
    | None => None
    | Some (Raise e, tr') => Some (Raise e, tr')
    | Some (Ok a, tr') => k a tr'
    end.

Notation "x <- m ;; k" := (bind m (fun x => k))
  (at level 61, m at next level, right associativity).
Notation "m ;;; k" := (bind m (fun _ => k))
  (at level 61, right associativity).

Definition rbind {A B : Type} (r : result A) (k : A -> result B) : result B :=
  match r with
  | Ok a => k a
  | Raise e => Raise e
  end.

(** ** Frames: construction, selection, concatenation, sorting *)

Definition max_width (rows : list (list value)) : nat :=
  fold_right (fun r w => Nat.max (length r) w) 0%nat rows.

Definition pad (w : nat) (row : list value) : list value :=
  (row ++ repeat VNone (w - length row))%list.

(** [pd.DataFrame(rows, columns=cols)] for a list of lists: short rows are
    filled with [None] up to the longest one, and the width must then be
    the number of labels ([ValueError] otherwise).  No rows: an empty frame
    with these labels. *)
Definition new_frame (rows : list (list value)) (cols : list string)
  : result DataFrame :=
  match rows with
  | [] => Ok (mkDF cols [])
  | _ =>
      if (max_width rows =? length cols)%nat
      then Ok (mkDF cols (map (pad (max_width rows)) rows))
      else Raise ValueError
  end.

Definition lookup_or_nan (src : list string) (row : list value) (c : string)
  : value :=
  match series_lookup c (combine src row) with
  | Some v => v
  | None => VNaN
  end.

(** A row labelled by [src], laid out on the labels [dst]; a label the row
    does not have gives [nan]. *)
Definition reindex (src dst : list string) (row : list value) : list value :=
  map (lookup_or_nan src row) dst.

Definition has_dup (cols : list string) : bool :=
  existsb (fun c => (1 <? count_str c cols)%nat) cols.

Definition union_cols (a b : list string) : list string :=
  (a ++ filter (fun c => negb (mem_str c a)) b)%list.

(** A frame without rows and without columns, as [pd.DataFrame()] is. *)
Definition zero_by_zero (df : DataFrame) : bool :=
  (len df =? 0)%nat && (length (columns df) =? 0)%nat.

(** [pd.concat([a, b], ignore_index=True)].  pandas first sets aside a
    frame without rows and columns when the other frame is not one, and
    returns that other frame.  Otherwise the result has the labels of [a]
    followed by the new ones of [b], and the rows of [a] then those of
    [b], each laid out on the joint labels.  With a repeated label pandas
    can only stack frames whose labels agree, and raises
    [InvalidIndexError] otherwise. *)
Definition concat (a b : DataFrame) : result DataFrame :=
  if zero_by_zero a && negb (zero_by_zero b) then Ok b
  else if zero_by_zero b && negb (zero_by_zero a) then Ok a
  else if has_dup (columns a) || has_dup (columns b) then
    if list_eq_dec string_dec (columns a) (columns b)
    then Ok (mkDF (columns a) (data a ++ data b)%list)
    else Raise InvalidIndexError
  else
    let cols := union_cols (columns a) (columns b) in
    Ok (mkDF cols
          (map (reindex (columns a) cols) (data a)
           ++ map (reindex (columns b) cols) (data b))%list).

(** [df[cols]] for a list of labels: [KeyError] when one is missing.  The
    labels of a frame read by [pd.read_csv] are pairwise distinct. *)
Definition select (cols : list string) (df : DataFrame) : result DataFrame :=
  if forallb (fun c => mem_str c (columns df)) cols
  then Ok (mkDF cols (map (reindex (columns df) cols) (data df)))
  else Raise KeyError.

(** [df.dropna()]: keep the rows without a missing value. *)
Definition dropna (df : DataFrame) : DataFrame :=
  mkDF (columns df) (filter (fun r => negb (existsb isna r)) (data df)).

(** The number a row holds under label [by], if it holds one. *)
Definition sort_key (by_ : string) (cols : list string) (row : list value)
  : option Q :=
  match series_lookup by_ (combine cols row) with
  | Some (VNum q) => Some q
  | _ => None
  end.

(** Descending order on keys, rows without a number last. *)
Definition desc_leb (a b : option Q) : bool :=
  match a, b with
  | Some x, Some y => Qle_bool y x
  | Some _, None => true
  | None, Some _ => false
  | None, None => true
  end.

Fixpoint insert_row (key : list value -> option Q) (r : list value)
         (l : list (list value)) : list (list value) :=
  match l with
  | [] => [r]
  | x :: rest =>
      if desc_leb (key r) (key x) then r :: l else x :: insert_row key r rest
  end.

Definition sort_rows (key : list value -> option Q) (l : list (list value))
  : list (list value) :=
  fold_right (insert_row key) [] l.

(** [df.sort_values(by=by_, ascending=False)]: [KeyError] when the label is
    missing; missing values go last.  pandas leaves the order among equal
    keys open; here they keep their order. *)
Definition sort_values_desc (by_ : string) (df : DataFrame) : result DataFrame :=
  if mem_str by_ (columns df)
  then Ok (mkDF (columns df) (sort_rows (sort_key by_ (columns df)) (data df)))
  else Raise KeyError.

(** Comparisons of a cell with a Python int.  [nan] compares false with
    everything; [None] and strings do not compare with an int. *)
Definition lt_int (v : value) (n : Z) : result bool :=
  match v with
  | VNum q => Ok (negb (Qle_bool (inject_Z n) q))
  | VNaN => Ok false
  | VNone | VStr _ => Raise TypeError
  end.

Definition ge_int (v : value) (n : Z) : result bool :=
  match v with
  | VNum q => Ok (Qle_bool (inject_Z n) q)
  | VNaN => Ok false
  | VNone | VStr _ => Raise TypeError
  end.

(** [v.replace(" ", "%20")]: only strings have the method. *)
Definition value_replace_space (v : value) : result string :=
  match v with
  | VStr s => Ok (replace_space s)
  | _ => Raise AttributeError
  end.

(** ** The script *)

Definition endpoint : string :=
  "https://www.pro-football-reference.com/friv/birthplaces.cgi".

(** Lines 20-22: the request URL. *)
Definition build_url (country state : string) (offset : Z) : string :=
  let url := endpoint ++ "?country=" ++ country ++ "&state=" ++ state in
  if (0 <? offset)%Z then url ++ "&offset=" ++ str_of_int offset else url.

(** [response.raise_for_status()] raises for the codes 400 to 599. *)
Definition is_error_status (status : Z) : bool :=
  ((400 <=? status) && (status <? 600))%Z.

(** [th.get('data-stat', th.get_text(strip=True))] *)
Definition header_label (h : header_cell) : string :=
  match data_stat h with
  | Some d => d
  | None => header_text h
  end.

Definition is_th (c : body_cell) : bool :=
  match tag c with
  | TH => true
  | TD => false
  end.

(** [row.find('th') and 'thead' in str(row.get('class', []))] *)
Definition is_header_row (r : table_row) : bool :=
  existsb is_th (cells r) && contains "thead" (str_of_list (row_class r)).

(** The text taken from a cell: that of its link when it has one, its own
    otherwise. *)
Definition extracted_text (c : body_cell) : string :=
  match link_text c with
  | Some t => t
  | None => cell_text c
  end.

(** Lines 77-86: the value appended for a cell; the empty string becomes
    [None]. *)
Definition cell_value (c : body_cell) : value :=
  if String.eqb (extracted_text c) "" then VNone else VStr (extracted_text c).

(** Lines 69-89: the loop over the rows of the body. *)
Fixpoint extract_rows (trs : list table_row) : list (list value) :=
  match trs with
  | [] => []
  | r :: rest =>
      if is_header_row r then extract_rows rest
      else
        match map cell_value (cells r) with
        | [] => extract_rows rest
        | row_data => row_data :: extract_rows rest
        end
  end.

(** [save_data]: the file the frame is written to. *)
Definition csv_name (location : string) : string :=
  "./data/nfl_players_birthplaces_" ++ lower location ++ ".csv".

Definition save_data (df : DataFrame) (location : string) : M unit :=
  emit (EvSave (csv_name location) df).

Definition expected_columns : list string :=
  [ "Country"; "State"; "# of Pros"; "# Active"; "# of HOF"; "G" ].

Section Script.

(** pandas' reading of one string as a number. *)
Variable str_to_num : string -> option Q.

(** The remote site: the reply to a GET of each URL. *)
Variable http_get : string -> http_reply.

(** [/data/birthlocations.csv] as [pd.read_csv] returns it, [None] when
    the file does not exist. *)
Variable birthlocations_csv : option DataFrame.

(** Lines 30-101: the body of the [try] of [scrape_birthplaces]. *)
Definition scrape_page (reply : http_reply) : result DataFrame :=
  match reply with
  | ConnectionFailed => Raise RequestException
  | Response status soup_table =>
      if is_error_status status then Raise RequestException
      else
        match soup_table with
        | None => Ok empty_frame
        | Some table =>
            match thead table with
            | None => Ok empty_frame
            | Some None => Ok empty_frame
            | Some (Some headers_row) =>
                let headers := map header_label headers_row in
                match tbody table with
                | None => Ok empty_frame
                | Some trs =>
                    rbind (new_frame (extract_rows trs) headers)
                          (clean_dataframe str_to_num)
                end
            end
        end
  end.

(** [scrape_birthplaces]: one GET; both [except] clauses return
    [pd.DataFrame()]. *)
Definition scrape_birthplaces (country state : string) (offset : Z)
  : M DataFrame :=
  let url := build_url country state offset in
  emit (EvGet url) ;;;
  ret (match scrape_page (http_get url) with
       | Ok df => df
       | Raise _ => empty_frame
       end).

(** [load_locations_df]: only [FileNotFoundError] is caught. *)
Definition load_locations_df : result DataFrame :=
  match birthlocations_csv with
  | None => Ok empty_frame
  | Some locations_df =>
      rbind (select expected_columns locations_df) (fun selected =>
      rbind (clean_dataframe str_to_num (dropna selected)) (fun cleaned =>
      sort_values_desc "# of Pros" cleaned))
  end.

(** Lines 172-198: the [while] loop of [load_location_df].  One unit of
    fuel pays for one test of the loop condition.  [_location] is
    [f"{_country}_{_state}"]; it is used once both values went through
    [.replace], hence are strings. *)
Fixpoint while_loop (fuel : nat) (_country _state _number_of_pros : value)
         (offset : Z) (out_df : DataFrame) : M DataFrame :=
  match fuel with
  | O => out_of_fuel
  | S fuel' =>
      continue <- lift (ge_int _number_of_pros offset) ;;
      if continue : bool then
        if (0 <? offset)%Z then
          country <- lift (value_replace_space _country) ;;
          state <- lift (value_replace_space _state) ;;
          df <- scrape_birthplaces country state offset ;;
          if empty df then ret out_df
          else
            out_df' <- lift (concat out_df df) ;;
            let _location :=
              match _country, _state with
              | VStr c, VStr s => c ++ "_" ++ s
              | _, _ => ""
              end in
            save_data df _location ;;;
            while_loop fuel' _country _state _number_of_pros
                       (offset + 200)%Z out_df'
        else
          while_loop fuel' _country _state _number_of_pros offset out_df
      else ret out_df
  end.

(** [load_location_df] *)
Definition load_location_df (fuel : nat) (row : Series) : M DataFrame :=
  emit (EvSleep 3) ;;;
  let _country := row_get row "Country" (VStr "Unknown") in
  let _state := row_get row "State" (VStr "") in
  let _number_of_pros := row_get row "# of Pros" (VNum 0) in
  skip <- lift (lt_int _number_of_pros 1) ;;
  if skip : bool then ret empty_frame
  else while_loop fuel _country _state _number_of_pros 0%Z empty_frame.

(** Lines 205-210: the loop of [load_birthplaces] over the rows. *)
Fixpoint for_rows (fuel : nat) (rows : list Series) (consolidated : DataFrame)
  : M DataFrame :=
  match rows with
  | [] => ret consolidated
  | row :: rest =>
      location_df <- load_location_df fuel row ;;
      consolidated' <- lift (concat consolidated location_df) ;;
      for_rows fuel rest consolidated'
  end.

(** [load_birthplaces] *)
Definition load_birthplaces (fuel : nat) : M unit :=
  locations_df <- lift load_locations_df ;;
  consolidated <- for_rows fuel (iterrows locations_df) empty_frame ;;
  save_data consolidated "consolidated".

End Script.

(** * Vocabulary of the properties *)

(** ** Numeric coercion, row by row *)

(** What numeric coercion is meant to do to one row: the cells under a
    label of the list [l] are read as numbers, the others are kept. *)
Fixpoint coerce_row_with (str_to_num : string -> option Q) (l cols : list string)
         (row : list value) : list value :=
  match cols, row with
  | c :: cs, v :: vs =>
      (if mem_str c l then to_numeric_cell str_to_num v else v)
        :: coerce_row_with str_to_num l cs vs
  | _, _ => row
  end.

Definition coerce_row (str_to_num : string -> option Q) :=
  coerce_row_with str_to_num numeric_columns.

(** No label of the list [l] heads two columns. *)
Definition labels_unique (l cols : list string) : bool :=
  forallb (fun c => (count_str c cols <=? 1)%nat) l.

(** ** Location records *)

(** A location record as a row of the catalog. *)
Definition location_record (country state : string)
           (known_pro_count active_count hof_count games : Z) : Series :=
  [ ("Country", VStr country); ("State", VStr state);
    ("# of Pros", VNum (inject_Z known_pro_count));
    ("# Active", VNum (inject_Z active_count));
    ("# of HOF", VNum (inject_Z hof_count));
    ("G", VNum (inject_Z games)) ].

(** ** Percent-encoding of spaces *)

(** The pieces of a string between its spaces ([s.split(" ")]). *)
Fixpoint split_space (s : string) : list string :=
  match s with
  | EmptyString => [EmptyString]
  | String c rest =>
      if Ascii.eqb c " "%char then EmptyString :: split_space rest
      else
        match split_space rest with
        | piece :: pieces => String c piece :: pieces
        | [] => [String c EmptyString]
        end
  end.

Fixpoint has_space (s : string) : bool :=
  match s with
  | EmptyString => false
  | String c rest => Ascii.eqb c " "%char || has_space rest
  end.

(** ** Data rows of a scraped table *)

(** The rows of the body that carry data: not a repeated header row, and
    with at least one cell. *)
Definition is_data_row (r : table_row) : bool :=
  negb (is_header_row r)
  && match cells r with
     | [] => false
     | _ :: _ => true
     end.

Definition data_rows (trs : list table_row) : list table_row :=
  filter is_data_row trs.

(** A table the scraper can turn into a frame: a header row, a body whose
    data rows have one cell per header cell, and no allow-list label
    heading two columns. *)
Definition well_formed_table (t : html_table) (headers_row : list header_cell)
           (trs : list table_row) : Prop :=
  thead t = Some (Some headers_row)
  /\ tbody t = Some trs
  /\ Forall (fun r => length (cells r) = length headers_row) (data_rows trs)
  /\ labels_unique numeric_columns (map header_label headers_row) = true.

(** ** Order of the catalog *)

(** Descending order on sort keys, as a proposition. *)
Definition key_desc (a b : option Q) : Prop :=
  match a, b with
  | Some x, Some y => (y <= x)%Q
  | _, None => True
  | None, Some _ => False
  end.

(** The known_pro_count of a catalog row: its third cell, when a number. *)
Definition known_pro_count (row : list value) : option Q :=
  match nth_error row 2 with
  | Some (VNum q) => Some q
  | _ => None
  end.

(** Row [r1] may stand before row [r2] in the order given by [key]. *)
Definition sorted_before (key : list value -> option Q) (r1 r2 : list value)
  : Prop :=
  desc_leb (key r1) (key r2) = true.

(** A row without a missing value. *)
Definition complete (row : list value) : bool :=
  forallb (fun v => negb (isna v)) row.

(** ** Shapes of frames and cells *)

(** A number or [nan]: what a numeric column holds. *)
Definition numeric_or_nan (v : value) : bool :=
  match v with
  | VNum _ | VNaN => true
  | VNone | VStr _ => false
  end.

(** Every row has one cell per label. *)
Definition rectangular (df : DataFrame) : Prop :=
  Forall (fun r => length r = length (columns df)) (data df).

(** The values of the cells of a data row, as the scraper hands them to
    [pd.DataFrame]. *)
Definition row_values (r : table_row) : list value :=
  map cell_value (cells r).

(** The number of cells of the longest data row. *)
Definition widest (trs : list table_row) : nat :=
  max_width (map row_values (data_rows trs)).

(** A row of the catalog as the loader leaves it: six cells, country and
    state present, the four counts numbers or [nan]. *)
Definition catalog_row (r : list value) : Prop :=
  exists country state pros active hof games,
    r = [country; state; pros; active; hof; games]
    /\ isna country = false
    /\ isna state = false
    /\ numeric_or_nan pros = true
    /\ numeric_or_nan active = true
    /\ numeric_or_nan hof = true
    /\ numeric_or_nan games = true.

(** The count of a catalog row is a number that is at least one. *)
Definition has_players (r : list value) : Prop :=
  exists q, known_pro_count r = Some q /\ (1 <= q)%Q.

(** The same two notions on a row as [iterrows] hands it out. *)
Definition series_count_ok (row : Series) : Prop :=
  numeric_or_nan (row_get row "# of Pros" (VNum 0)) = true.

Definition series_has_players (row : Series) : Prop :=
  exists q, row_get row "# of Pros" (VNum 0) = VNum q /\ (1 <= q)%Q.

(** A string of ASCII characters only. *)
Fixpoint ascii_only (s : string) : bool :=
  match s with
  | EmptyString => true
  | String c rest => (nat_of_ascii c <? 128)%nat && ascii_only rest
  end.

(** ** Sample inputs *)

Module Samples.

(** A site that answers every request with status 404. *)
Definition not_found (url : string) : http_reply := Response 404 None.

Definition stats_header : list header_cell :=
  [ mkHeaderCell (Some "player") "Player"; mkHeaderCell None "g" ].

(** A body with a repeated header row between two data rows; the last
    data row has an empty first cell and a games cell that is no number. *)
Definition stats_body : list table_row :=
  [ mkRow [] [ mkCell TH (Some "Tom Brady") "Tom Brady*"; mkCell TD None "335" ];
    mkRow ["thead"] [ mkCell TH None "Player"; mkCell TH None "G" ];
    mkRow [] [ mkCell TD None ""; mkCell TD None "n/a" ] ].

Definition stats_table : html_table :=
  mkTable (Some (Some stats_header)) (Some stats_body).

Definition stats_site (url : string) : http_reply :=
  Response 200 (Some stats_table).

Definition players : DataFrame :=
  mkDF ["player"; "g"]
       [ [VStr "Tom Brady"; VStr "335"]; [VStr "Jim Thorpe"; VStr "n/a"] ].

(** A reference file with one column more than the loader needs; the
    third row misses its state and the count of the last is no number. *)
Definition catalog_file : DataFrame :=
  mkDF ["Country"; "State"; "# of Pros"; "# Active"; "# of HOF"; "G"; "Note"]
       [ [VStr "USA"; VStr "TX"; VStr "250"; VNum 1; VNum 2; VNum 3; VNaN];
         [VStr "USA"; VStr "CA"; VStr "300"; VNum 1; VNum 2; VNum 3; VNaN];
         [VStr "USA"; VNaN; VStr "900"; VNum 1; VNum 2; VNum 3; VNaN];
         [VStr "USA"; VStr "AK"; VStr "few"; VNum 1; VNum 2; VNum 3; VNaN] ].

(** The same file without its games column. *)
Definition catalog_without_games : DataFrame :=
  mkDF ["Country"; "State"; "# of Pros"; "# Active"; "# of HOF"]
       [ [VStr "USA"; VStr "TX"; VNum 250; VNum 1; VNum 2] ].

(** A catalog whose locations have no players. *)
Definition catalog_no_players : DataFrame :=
  mkDF ["Country"; "State"; "# of Pros"; "# Active"; "# of HOF"; "G"]
       [ [VStr "Canada"; VStr "YT"; VNum 0; VNum 0; VNum 0; VNum 0];
         [VStr "USA"; VStr "GU"; VNum 0; VNum 0; VNum 0; VNum 0] ].

(** [players], coerced. *)
Definition players_cleaned : DataFrame :=
  mkDF ["player"; "g"]
       [ [VStr "Tom Brady"; VNum 335]; [VStr "Jim Thorpe"; VNaN] ].

(** The frame scraped from [stats_table]. *)
Definition stats_frame : DataFrame :=
  mkDF ["player"; "g"] [ [VStr "Tom Brady"; VNum 335]; [VNone; VNaN] ].

(** A body whose second data row stops after its first cell. *)
Definition ragged_body : list table_row :=
  [ mkRow [] [ mkCell TD None "Jim Brown"; mkCell TD None "118" ];
    mkRow [] [ mkCell TD None "Jim Thorpe" ] ].

Definition ragged_site (url : string) : http_reply :=
  Response 200 (Some (mkTable (Some (Some stats_header)) (Some ragged_body))).

(** A body whose row has one cell more than the header row. *)
Definition wide_body : list table_row :=
  [ mkRow [] [ mkCell TD None "Jim Brown"; mkCell TD None "118";
               mkCell TD None "HOF" ] ].

Definition wide_site (url : string) : http_reply :=
  Response 200 (Some (mkTable (Some (Some stats_header)) (Some wide_body))).

(** A header row that names the games column twice. *)
Definition twin_header : list header_cell :=
  [ mkHeaderCell (Some "player") "Player"; mkHeaderCell (Some "g") "G";
    mkHeaderCell (Some "g") "GS" ].

Definition twin_site (url : string) : http_reply :=
  Response 200 (Some (mkTable (Some (Some twin_header)) (Some wide_body))).

(** What the loader returns for [catalog_file]. *)
Definition catalog_sorted : DataFrame :=
  mkDF ["Country"; "State"; "# of Pros"; "# Active"; "# of HOF"; "G"]
       [ [VStr "USA"; VStr "CA"; VNum 300; VNum 1; VNum 2; VNum 3];
         [VStr "USA"; VStr "TX"; VNum 250; VNum 1; VNum 2; VNum 3];
         [VStr "USA"; VStr "AK"; VNaN; VNum 1; VNum 2; VNum 3] ].

(** A reference file with one location, which has players. *)
Definition catalog_texas : DataFrame :=
  mkDF ["Country"; "State"; "# of Pros"; "# Active"; "# of HOF"; "G"]
       [ [VStr "USA"; VStr "TX"; VNum 250; VNum 12; VNum 3; VNum 40000] ].

End Samples.

(** * Properties *)

(** ** Numeric coercion *)

Lemma mem_str_In (s : string) (l : list string) :
  mem_str s l = true <-> In s l.
Proof.
  unfold mem_str. rewrite existsb_exists. split.
  - intros [x [Hx Heq]]. apply String.eqb_eq in Heq. now subst.
  - intros H. exists s. split; [assumption | apply String.eqb_refl].
Qed.

Lemma mem_str_false (s : string) (l : list string) :
  mem_str s l = false <-> ~ In s l.
Proof.
  rewrite <- mem_str_In. destruct (mem_str s l); split; congruence.
Qed.

Section CoercionFacts.

Variable str_to_num : string -> option Q.

Local Abbreviation f := (to_numeric_cell str_to_num).

Lemma to_numeric_cell_idem (v : value) : f (f v) = f v.
Proof.
  unfold f. destruct v as [| | s | q]; simpl; try reflexivity.
  destruct (str_to_num s); reflexivity.
Qed.

Lemma to_numeric_cell_not_str (v : value) (s : string) : f v <> VStr s.
Proof.
  unfold f. destruct v as [| | s' | q]; simpl; try discriminate.
  destruct (str_to_num s'); discriminate.
Qed.

Lemma coerce_row_with_nil (cols : list string) (row : list value) :
  coerce_row_with str_to_num [] cols row = row.
Proof.
  revert row. induction cols as [| c cs IH]; intros [| v vs]; simpl;
    try reflexivity.
  now rewrite IH.
Qed.

Lemma coerce_row_with_cons (col : string) (l cols : list string)
      (row : list value) :
  coerce_row_with str_to_num l cols (apply_col f col cols row)
  = coerce_row_with str_to_num (col :: l) cols row.
Proof.
  revert row. induction cols as [| c cs IH]; intros [| v vs]; simpl;
    try reflexivity.
  rewrite IH. f_equal. unfold mem_str. simpl.
  destruct (String.eqb c col), (existsb (String.eqb c) l); simpl;
    try reflexivity.
  apply to_numeric_cell_idem.
Qed.

Lemma apply_col_absent (col : string) (cols : list string) (row : list value) :
  mem_str col cols = false -> apply_col f col cols row = row.
Proof.
  revert row. induction cols as [| c cs IH]; intros [| v vs] H; simpl;
    try reflexivity.
  simpl in H. apply orb_false_iff in H. destruct H as [Hc Hcs].
  rewrite String.eqb_sym, Hc. now rewrite IH.
Qed.

(** The cell at position [j] of a coerced row. *)
Lemma coerce_row_with_nth (l cols : list string) (row : list value) (j : nat) :
  nth_error (coerce_row_with str_to_num l cols row) j
  = match nth_error row j, nth_error cols j with
    | Some v, Some c => Some (if mem_str c l then f v else v)
    | other, _ => other
    end.
Proof.
  revert row j. induction cols as [| c cs IH]; intros [| v vs] [| j]; simpl;
    try reflexivity.
  - destruct (nth_error vs j); reflexivity.
  - apply IH.
Qed.

(** The loop of [clean_dataframe] over a list of labels amounts to
    coercing each row, provided no label of the list heads two columns. *)
Lemma coerce_columns_spec (l : list string) (df : DataFrame) :
  labels_unique l (columns df) = true ->
  coerce_columns str_to_num l df
  = Ok (mkDF (columns df)
          (map (coerce_row_with str_to_num l (columns df)) (data df))).
Proof.
  revert df. induction l as [| col l IH]; intros df Hu.
  - simpl. destruct df as [cols rows]. simpl. f_equal. f_equal.
    rewrite <- (map_id rows) at 1. apply map_ext.
    intros r. now rewrite coerce_row_with_nil.
  - simpl in Hu. apply andb_true_iff in Hu. destruct Hu as [Hcol Hl].
    apply Nat.leb_le in Hcol.
    assert (Hstep : coerce_column str_to_num df col
                    = Ok (mkDF (columns df)
                            (map (apply_col f col (columns df)) (data df)))).
    { unfold coerce_column. destruct (mem_str col (columns df)) eqn:Hm.
      - destruct (Nat.ltb_spec 1 (count_str col (columns df))); [lia |].
        reflexivity.
      - destruct df as [cols rows]. simpl in *. f_equal. f_equal.
        rewrite <- (map_id rows) at 1. apply map_ext.
        intros r. now rewrite apply_col_absent. }
    simpl. rewrite Hstep. rewrite IH by exact Hl. simpl.
    f_equal. f_equal. rewrite map_map. apply map_ext.
    intros r. apply coerce_row_with_cons.
Qed.

Lemma clean_dataframe_spec (df : DataFrame) :
  labels_unique numeric_columns (columns df) = true ->
  clean_dataframe str_to_num df
  = Ok (mkDF (columns df) (map (coerce_row str_to_num (columns df)) (data df))).
Proof. apply coerce_columns_spec. Qed.

End CoercionFacts.

(** C6. When a column whose label is in the numeric allow-list holds a
    string that does not read as a number, numeric coercion returns a frame
    (it does not raise) in which that cell is the absent value [nan].  The
    frame has at most one column under each allow-list label. *)
Theorem non_numeric_string_becomes_absent
        (str_to_num : string -> option Q) (df : DataFrame)
        (col s : string) (i j : nat) :
  labels_unique numeric_columns (columns df) = true ->
  In col numeric_columns ->
  nth_error (columns df) j = Some col ->
  cell df i j = Some (VStr s) ->
  str_to_num s = None ->
  exists df',
    clean_dataframe str_to_num df = Ok df'
    /\ cell df' i j = Some VNaN
    /\ isna VNaN = true.
Proof.
  intros Hu Hin Hcol Hcell Hs.
  eexists. split; [apply clean_dataframe_spec; exact Hu |].
  split; [| reflexivity].
  unfold cell in *. simpl. rewrite nth_error_map.
  destruct (nth_error (data df) i) as [row |]; [| discriminate]. simpl.
  unfold coerce_row. rewrite coerce_row_with_nth, Hcell, Hcol.
  apply mem_str_In in Hin. rewrite Hin. simpl. now rewrite Hs.
Qed.

(** C10. Numeric coercion keeps the labels, the number of rows and their
    order (row [i] of the result is row [i] of the input, coerced), and
    leaves every cell under a label outside the allow-list as it was.  The
    frame has at most one column under each allow-list label. *)
Theorem clean_dataframe_frame
        (str_to_num : string -> option Q) (df : DataFrame) :
  labels_unique numeric_columns (columns df) = true ->
  exists df',
    clean_dataframe str_to_num df = Ok df'
    /\ columns df' = columns df
    /\ len df' = len df
    /\ (forall i,
           nth_error (data df') i
           = option_map (coerce_row str_to_num (columns df))
                        (nth_error (data df) i))
    /\ (forall i j c,
           nth_error (columns df) j = Some c ->
           ~ In c numeric_columns ->
           cell df' i j = cell df i j).
Proof.
  intros Hu. eexists. split; [apply clean_dataframe_spec; exact Hu |].
  simpl. split; [reflexivity |]. split; [apply length_map |].
  split.
  - intros i. apply nth_error_map.
  - intros i j c Hc Hnot. unfold cell. simpl. rewrite nth_error_map.
    destruct (nth_error (data df) i) as [row |]; [| reflexivity]. simpl.
    unfold coerce_row. rewrite coerce_row_with_nth, Hc.
    rewrite (proj2 (mem_str_false c numeric_columns) Hnot).
    destruct (nth_error row j); reflexivity.
Qed.

(** ** Pagination *)

Section PaginationFacts.

Variable str_to_num : string -> option Q.
Variable http_get : string -> http_reply.

(** At offset 0 the body of the loop does nothing: [offset += 200] sits
    inside [if offset > 0], so the next test sees the same state. *)
Lemma while_loop_offset_0 (fuel : nat) (c s : value) (q : Q)
      (out_df : DataFrame) (tr : trace) :
  Qle_bool 0 q = true ->
  while_loop str_to_num http_get (S fuel) c s (VNum q) 0 out_df tr
  = while_loop str_to_num http_get fuel c s (VNum q) 0 out_df tr.
Proof.
  intros Hq. simpl. unfold bind, lift. simpl.
  change (inject_Z 0) with 0%Q. rewrite Hq. reflexivity.
Qed.

Lemma while_loop_stuck (fuel : nat) (c s : value) (q : Q)
      (out_df : DataFrame) (tr : trace) :
  Qle_bool 0 q = true ->
  while_loop str_to_num http_get fuel c s (VNum q) 0 out_df tr = None.
Proof.
  intros Hq. induction fuel as [| fuel IH].
  - reflexivity.
  - rewrite while_loop_offset_0 by exact Hq. exact IH.
Qed.

Lemma load_location_df_stuck (fuel : nat) (country state : string)
      (n a h g : Z) (tr : trace) :
  (1 <= n)%Z ->
  load_location_df str_to_num http_get fuel
                   (location_record country state n a h g) tr = None.
Proof.
  intros Hn. unfold load_location_df, bind, emit, lift. simpl.
  assert (H1 : Qle_bool (inject_Z 1) (inject_Z n) = true).
  { apply Qle_bool_iff. rewrite <- Zle_Qle. exact Hn. }
  rewrite H1. simpl. apply while_loop_stuck.
  apply Qle_bool_iff. change 0%Q with (inject_Z 0). rewrite <- Zle_Qle. lia.
Qed.

End PaginationFacts.

(** C1. With [known_pro_count = 250] the loop of [load_location_df] does
    not reach offset 200: a turn at offset 0 leaves the offset, the
    accumulator and the trace as they were, so the driver returns within no
    amount of fuel and no fetch is ever made. *)
Theorem pagination_250_never_returns
        (str_to_num : string -> option Q) (http_get : string -> http_reply)
        (country state : string) (a h g : Z) (fuel : nat) (tr : trace) :
  while_loop str_to_num http_get (S fuel) (VStr country) (VStr state)
             (VNum (inject_Z 250)) 0 empty_frame tr
  = while_loop str_to_num http_get fuel (VStr country) (VStr state)
               (VNum (inject_Z 250)) 0 empty_frame tr
  /\ load_location_df str_to_num http_get fuel
                      (location_record country state 250 a h g) tr = None.
Proof.
  split.
  - apply while_loop_offset_0. reflexivity.
  - apply load_location_df_stuck. lia.
Qed.

(** C2. With [known_pro_count = 50] the first turn of the loop skips the
    fetch and leaves the offset at 0, so the test [offset <= 50] holds
    again: the driver returns within no amount of fuel. *)
Theorem pagination_50_never_returns
        (str_to_num : string -> option Q) (http_get : string -> http_reply)
        (country state : string) (a h g : Z) (fuel : nat) (tr : trace) :
  while_loop str_to_num http_get (S fuel) (VStr country) (VStr state)
             (VNum (inject_Z 50)) 0 empty_frame tr
  = while_loop str_to_num http_get fuel (VStr country) (VStr state)
               (VNum (inject_Z 50)) 0 empty_frame tr
  /\ load_location_df str_to_num http_get fuel
                      (location_record country state 50 a h g) tr = None.
Proof.
  split.
  - apply while_loop_offset_0. reflexivity.
  - apply load_location_df_stuck. lia.
Qed.

(** ** The request *)

Lemma split_space_not_nil (s : string) : split_space s <> [].
Proof.
  induction s as [| c rest IH]; simpl; [discriminate |].
  destruct (Ascii.eqb c " "%char); [discriminate |].
  destruct (split_space rest); discriminate.
Qed.

Lemma replace_space_join (s : string) :
  replace_space s = String.concat "%20" (split_space s).
Proof.
  induction s as [| c rest IH]; simpl; [reflexivity |].
  destruct (Ascii.eqb c " "%char).
  - rewrite IH. destruct (split_space rest) as [| p ps] eqn:E.
    + now apply split_space_not_nil in E.
    + reflexivity.
  - rewrite IH. destruct (split_space rest) as [| p ps] eqn:E.
    + now apply split_space_not_nil in E.
    + destruct ps; reflexivity.
Qed.

Lemma split_space_pieces (s : string) :
  Forall (fun piece => has_space piece = false) (split_space s).
Proof.
  induction s as [| c rest IH]; simpl.
  - constructor; [reflexivity | constructor].
  - destruct (Ascii.eqb c " "%char) eqn:Ec.
    + constructor; [reflexivity | exact IH].
    + destruct (split_space rest) as [| p ps]; inversion IH; subst;
        constructor; simpl; try rewrite Ec; auto.
Qed.

Lemma replace_space_no_space (s : string) : has_space (replace_space s) = false.
Proof.
  induction s as [| c rest IH]; simpl; [reflexivity |].
  destruct (Ascii.eqb c " "%char) eqn:Ec; simpl.
  - exact IH.
  - now rewrite Ec, IH.
Qed.


(** ** The scraper *)

(** C4. When the reply to the GET carries a status that
    [raise_for_status] rejects (400 to 599), the scraper returns the empty
    frame, raises nothing, and has issued this one GET only. *)
Theorem error_status_gives_empty_frame
        (str_to_num : string -> option Q) (http_get : string -> http_reply)
        (country state : string) (offset : Z)
        (status : Z) (soup_table : option html_table) (tr : trace) :
  http_get (build_url country state offset) = Response status soup_table ->
  is_error_status status = true ->
  scrape_birthplaces str_to_num http_get country state offset tr
  = Some (Ok empty_frame, (tr ++ [EvGet (build_url country state offset)])%list).
Proof.
  intros Hget Hst. unfold scrape_birthplaces, bind, emit, ret. simpl.
  rewrite Hget. simpl. rewrite Hst. reflexivity.
Qed.

Lemma extract_rows_data_rows (trs : list table_row) :
  extract_rows trs = map (fun r => map cell_value (cells r)) (data_rows trs).
Proof.
  unfold data_rows.
  induction trs as [| r rest IH]; simpl; [reflexivity |].
  destruct (is_header_row r) eqn:Eh.
  - replace (is_data_row r) with false
      by (unfold is_data_row; now rewrite Eh).
    exact IH.
  - destruct (cells r) as [| c cs] eqn:Ec.
    + replace (is_data_row r) with false
        by (unfold is_data_row; now rewrite Eh, Ec).
      exact IH.
    + replace (is_data_row r) with true
        by (unfold is_data_row; now rewrite Eh, Ec).
      simpl. now rewrite IH, Ec.
Qed.

Lemma max_width_uniform (w : nat) (rows : list (list value)) :
  rows <> [] ->
  Forall (fun r => length r = w) rows ->
  max_width rows = w.
Proof.
  intros Hne Hall. induction Hall as [| r rest Hr Hrest IH].
  - congruence.
  - simpl. destruct rest as [| r' rest'].
    + simpl. rewrite Hr. apply Nat.max_0_r.
    + fold (max_width (r' :: rest')). rewrite IH by discriminate.
      rewrite Hr. apply Nat.max_id.
Qed.

Lemma pad_full (row : list value) : pad (length row) row = row.
Proof. unfold pad. rewrite Nat.sub_diag. simpl. apply app_nil_r. Qed.

(** Rows as wide as the labels are taken as they are. *)
Lemma new_frame_uniform (rows : list (list value)) (cols : list string) :
  Forall (fun r => length r = length cols) rows ->
  new_frame rows cols = Ok (mkDF cols rows).
Proof.
  intros Hall. destruct rows as [| r rest]; [reflexivity |].
  unfold new_frame.
  rewrite (max_width_uniform (length cols)) by (discriminate || assumption).
  rewrite Nat.eqb_refl. f_equal. f_equal.
  rewrite <- (map_id (r :: rest)) at 2. apply map_ext_in.
  intros x Hx. rewrite Forall_forall in Hall.
  rewrite <- (Hall x Hx). apply pad_full.
Qed.

Lemma cell_value_isna (c : body_cell) :
  extracted_text c = "" -> cell_value c = VNone.
Proof. unfold cell_value. intros H. now rewrite H. Qed.

Lemma cell_value_not_empty_string (c : body_cell) : cell_value c <> VStr "".
Proof.
  unfold cell_value. destruct (String.eqb_spec (extracted_text c) "") as [E | E].
  - discriminate.
  - intros H. injection H as H. contradiction.
Qed.

Section ScraperFacts.

Variable str_to_num : string -> option Q.
Variable http_get : string -> http_reply.

(** The frame scraped from a well-formed table. *)
Lemma scrape_page_well_formed (status : Z) (t : html_table)
      (headers_row : list header_cell) (trs : list table_row) :
  is_error_status status = false ->
  well_formed_table t headers_row trs ->
  scrape_page str_to_num (Response status (Some t))
  = Ok (mkDF (map header_label headers_row)
          (map (fun r => coerce_row str_to_num (map header_label headers_row)
                           (map cell_value (cells r)))
               (data_rows trs))).
Proof.
  intros Hst (Hhead & Hbody & Hwidth & Huniq).
  unfold scrape_page. rewrite Hst, Hhead, Hbody.
  rewrite extract_rows_data_rows.
  rewrite new_frame_uniform.
  - unfold rbind. rewrite clean_dataframe_spec by exact Huniq.
    simpl. now rewrite map_map.
  - rewrite Forall_map. rewrite Forall_forall in *.
    intros r Hr. rewrite !length_map. now apply Hwidth.
Qed.

End ScraperFacts.

(** C5 (as amended).  For a reply that is not an error status and holds a
    well-formed table, the scraper returns a frame labelled by the header
    row whose rows are the data rows of the body in order: the body rows
    that are not repeated header rows (a [th] and [thead] in the class) and
    have at least one cell.  A cell whose extracted text (that of its link
    if it has one, its own otherwise) is empty is an absent value, and no
    cell of the frame is the empty string. *)
Theorem scraped_rows_are_data_rows
        (str_to_num : string -> option Q) (http_get : string -> http_reply)
        (country state : string) (offset : Z) (status : Z) (t : html_table)
        (headers_row : list header_cell) (trs : list table_row) (tr : trace) :
  http_get (build_url country state offset) = Response status (Some t) ->
  is_error_status status = false ->
  well_formed_table t headers_row trs ->
  exists df,
    scrape_birthplaces str_to_num http_get country state offset tr
    = Some (Ok df, (tr ++ [EvGet (build_url country state offset)])%list)
    /\ columns df = map header_label headers_row
    /\ len df = length (data_rows trs)
    /\ (forall i j r c,
           nth_error (data_rows trs) i = Some r ->
           nth_error (cells r) j = Some c ->
           extracted_text c = "" ->
           exists v, cell df i j = Some v /\ isna v = true)
    /\ (forall i j, cell df i j <> Some (VStr "")).
Proof.
  intros Hget Hst Hwf.
  eexists. split.
  { unfold scrape_birthplaces, bind, emit, ret. simpl. rewrite Hget.
    rewrite (scrape_page_well_formed str_to_num status t headers_row trs Hst Hwf).
    reflexivity. }
  simpl. split; [reflexivity |]. split; [apply length_map |]. split.
  - intros i j r c Hr Hc Htext. unfold cell. simpl.
    rewrite nth_error_map, Hr. cbn [option_map].
    unfold coerce_row. rewrite coerce_row_with_nth, nth_error_map, Hc.
    cbn [option_map]. rewrite (cell_value_isna c Htext).
    destruct (nth_error (map header_label headers_row) j) as [lbl |].
    + destruct (mem_str lbl numeric_columns); eexists; split; reflexivity.
    + eexists; split; reflexivity.
  - intros i j. unfold cell. simpl. rewrite nth_error_map.
    destruct (nth_error (data_rows trs) i) as [r |]; [| discriminate].
    cbn [option_map]. unfold coerce_row.
    rewrite coerce_row_with_nth, nth_error_map.
    destruct (nth_error (cells r) j) as [c |]; [| discriminate].
    cbn [option_map].
    destruct (nth_error (map header_label headers_row) j) as [lbl |].
    + destruct (mem_str lbl numeric_columns).
      * intros H. injection H as H.
        now apply to_numeric_cell_not_str in H.
      * intros H. injection H as H.
        now apply cell_value_not_empty_string in H.
    + intros H. injection H as H.
      now apply cell_value_not_empty_string in H.
Qed.

(** ** The location catalog *)

Lemma desc_leb_iff (a b : option Q) : desc_leb a b = true <-> key_desc a b.
Proof.
  destruct a as [x |], b as [y |]; simpl; try tauto.
  - apply Qle_bool_iff.
  - split; [discriminate | contradiction].
Qed.

Lemma desc_leb_total (a b : option Q) :
  desc_leb a b = false -> desc_leb b a = true.
Proof.
  destruct a as [x |], b as [y |]; simpl; try congruence.
  intros H. apply Qle_bool_iff.
  destruct (Qlt_le_dec x y) as [Hlt | Hle].
  - apply Qlt_le_weak, Hlt.
  - apply Qle_bool_iff in Hle. congruence.
Qed.

Lemma desc_leb_trans (a b c : option Q) :
  desc_leb a b = true -> desc_leb b c = true -> desc_leb a c = true.
Proof.
  destruct a as [x |], b as [y |], c as [z |]; simpl; try congruence.
  rewrite !Qle_bool_iff. intros H1 H2. eapply Qle_trans; eassumption.
Qed.

Section SortFacts.

Variable key : list value -> option Q.

Local Abbreviation before := (sorted_before key).

Lemma insert_row_perm (r : list value) (l : list (list value)) :
  Permutation (insert_row key r l) (r :: l).
Proof.
  induction l as [| x rest IH]; simpl.
  - apply Permutation_refl.
  - destruct (desc_leb (key r) (key x)).
    + apply Permutation_refl.
    + eapply perm_trans; [apply perm_skip, IH | apply perm_swap].
Qed.

Lemma sort_rows_perm (l : list (list value)) :
  Permutation (sort_rows key l) l.
Proof.
  induction l as [| r rest IH]; simpl.
  - apply perm_nil.
  - eapply perm_trans; [apply insert_row_perm | apply perm_skip, IH].
Qed.

Lemma insert_row_sorted (r : list value) (l : list (list value)) :
  StronglySorted before l -> StronglySorted before (insert_row key r l).
Proof.
  induction 1 as [| x rest Hsorted IH Hall]; simpl.
  - repeat constructor.
  - destruct (desc_leb (key r) (key x)) eqn:E.
    + constructor; [constructor; assumption |].
      constructor; [exact E |].
      eapply Forall_impl; [| exact Hall].
      intros y Hy. unfold sorted_before in *. eapply desc_leb_trans; eassumption.
    + constructor; [exact IH |].
      apply (Permutation_Forall (Permutation_sym (insert_row_perm r rest))).
      constructor; [| exact Hall].
      apply desc_leb_total, E.
Qed.

Lemma sort_rows_sorted (l : list (list value)) :
  StronglySorted before (sort_rows key l).
Proof.
  induction l as [| r rest IH]; simpl.
  - constructor.
  - apply insert_row_sorted, IH.
Qed.

End SortFacts.

Lemma StronglySorted_weaken {A : Type} (R S : A -> A -> Prop) (l : list A) :
  (forall x y, R x y -> S x y) ->
  StronglySorted R l -> StronglySorted S l.
Proof.
  intros HRS. induction 1 as [| x rest Hsorted IH Hall]; constructor.
  - exact IH.
  - eapply Forall_impl; [| exact Hall]. intros y. apply HRS.
Qed.

Lemma sort_key_known_pro_count (row : list value) :
  sort_key "# of Pros" expected_columns row = known_pro_count row.
Proof.
  destruct row as [| a [| b [| c rest]]]; reflexivity.
Qed.

Lemma dropna_complete (row : list value) :
  negb (existsb isna row) = complete row.
Proof.
  induction row as [| v vs IH]; simpl; [reflexivity |].
  rewrite negb_orb. now rewrite IH.
Qed.

Lemma expected_columns_present (cols : list string) :
  forallb (fun c => mem_str c cols) expected_columns = true
  <-> (forall c, In c expected_columns -> In c cols).
Proof.
  rewrite forallb_forall. split; intros H c Hc.
  - apply mem_str_In, H, Hc.
  - apply mem_str_In, H, Hc.
Qed.


(** C3 (as amended).  When the reference file exists but lacks one of the
    six expected columns, the loader raises [KeyError], which reaches its
    caller; the one failure it turns into an empty result is that of a file
    that is not there. *)
Theorem missing_column_raises_KeyError
        (str_to_num : string -> option Q) (file : DataFrame) (c : string) :
  In c expected_columns ->
  ~ In c (columns file) ->
  load_locations_df str_to_num (Some file) = Raise KeyError
  /\ load_locations_df str_to_num None = Ok empty_frame.
Proof.
  intros Hc Hmissing. split; [| reflexivity].
  unfold load_locations_df, select.
  destruct (forallb (fun c0 => mem_str c0 (columns file)) expected_columns)
    eqn:E; [| reflexivity].
  exfalso. apply Hmissing.
  now apply (proj1 (expected_columns_present (columns file)) E).
Qed.

(** ** Counting labels *)

Lemma count_str_count_occ (s : string) (l : list string) :
  count_str s l = count_occ string_dec l s.
Proof.
  induction l as [| c rest IH]; simpl; [reflexivity |].
  destruct (string_dec c s) as [E | E].
  - subst. rewrite String.eqb_refl. now rewrite IH.
  - apply String.eqb_neq in E. rewrite E. now rewrite IH.
Qed.

(** * Further properties *)

(** ** Numeric coercion *)

Lemma count_str_mem (s : string) (l : list string) :
  (0 < count_str s l)%nat -> mem_str s l = true.
Proof.
  intros H. apply mem_str_In. rewrite count_str_count_occ in H.
  now apply (count_occ_In string_dec).
Qed.

Section CoercionMore.

Variable str_to_num : string -> option Q.

Lemma coerce_column_columns (df df' : DataFrame) (col : string) :
  coerce_column str_to_num df col = Ok df' -> columns df' = columns df.
Proof.
  unfold coerce_column.
  destruct (mem_str col (columns df)).
  - destruct (1 <? count_str col (columns df))%nat; [discriminate |].
    intros H. injection H as H. now subst.
  - intros H. injection H as H. now subst.
Qed.

Lemma coerce_column_raises (df : DataFrame) (col : string) (e : exn) :
  coerce_column str_to_num df col = Raise e -> e = TypeError.
Proof.
  unfold coerce_column.
  destruct (mem_str col (columns df)); [| discriminate].
  destruct (1 <? count_str col (columns df))%nat; [| discriminate].
  intros H. now injection H.
Qed.

(** The loop of [clean_dataframe] stops with [TypeError] as soon as it
    meets a label that heads two columns. *)
Lemma coerce_columns_repeated (l : list string) (df : DataFrame) :
  labels_unique l (columns df) = false ->
  coerce_columns str_to_num l df = Raise TypeError.
Proof.
  revert df. induction l as [| col l IH]; intros df Hu; [discriminate |].
  simpl in Hu. simpl.
  destruct (coerce_column str_to_num df col) as [df1 | e] eqn:Hstep.
  - apply IH. rewrite (coerce_column_columns df df1 col Hstep).
    destruct (Nat.leb_spec (count_str col (columns df)) 1) as [Hle | Hgt];
      [exact Hu |].
    exfalso. unfold coerce_column in Hstep.
    rewrite count_str_mem in Hstep by lia.
    destruct (Nat.ltb_spec 1 (count_str col (columns df))); [discriminate | lia].
  - now rewrite (coerce_column_raises df col e Hstep).
Qed.

Lemma coerce_row_with_idem (l cols : list string) (row : list value) :
  coerce_row_with str_to_num l cols (coerce_row_with str_to_num l cols row)
  = coerce_row_with str_to_num l cols row.
Proof.
  revert row. induction cols as [| c cs IH]; intros [| v vs]; simpl;
    try reflexivity.
  rewrite IH. f_equal.
  destruct (mem_str c l); [apply to_numeric_cell_idem | reflexivity].
Qed.

Lemma coerce_row_with_length (l cols : list string) (row : list value) :
  length (coerce_row_with str_to_num l cols row) = length row.
Proof.
  revert row. induction cols as [| c cs IH]; intros [| v vs]; simpl;
    try reflexivity.
  now rewrite IH.
Qed.

Lemma to_numeric_cell_numeric (v : value) :
  numeric_or_nan (to_numeric_cell str_to_num v) = true.
Proof.
  destruct v as [| | s | q]; simpl; try reflexivity.
  destruct (str_to_num s); reflexivity.
Qed.

End CoercionMore.

(** X1. [clean_dataframe] raises exactly when a label of the allow-list
    heads two or more columns of the frame, and what it raises then is
    [TypeError]; otherwise it returns a frame. *)
Theorem clean_dataframe_raises_iff
        (str_to_num : string -> option Q) (df : DataFrame) :
  (labels_unique numeric_columns (columns df) = false
   <-> clean_dataframe str_to_num df = Raise TypeError)
  /\ (labels_unique numeric_columns (columns df) = true
      <-> exists df', clean_dataframe str_to_num df = Ok df').
Proof.
  destruct (labels_unique numeric_columns (columns df)) eqn:Hu.
  - pose proof (clean_dataframe_spec str_to_num df Hu) as Hok. split; split.
    + discriminate.
    + intros H. rewrite H in Hok. discriminate.
    + intros _. eexists. exact Hok.
    + reflexivity.
  - pose proof (coerce_columns_repeated str_to_num numeric_columns df Hu) as Hr.
    fold (clean_dataframe str_to_num df) in Hr. split; split.
    + intros _. exact Hr.
    + reflexivity.
    + discriminate.
    + intros [df' H]. rewrite H in Hr. discriminate.
Qed.

(** X2. Coercing a frame twice gives what coercing it once gives. *)
Theorem clean_dataframe_idempotent
        (str_to_num : string -> option Q) (df df' : DataFrame) :
  clean_dataframe str_to_num df = Ok df' ->
  clean_dataframe str_to_num df' = Ok df'.
Proof.
  intros H.
  destruct (labels_unique numeric_columns (columns df)) eqn:Hu.
  - rewrite (clean_dataframe_spec str_to_num df Hu) in H.
    injection H as H. subst df'.
    rewrite clean_dataframe_spec by exact Hu. cbn [columns data].
    f_equal. f_equal. rewrite map_map. apply map_ext.
    intros r. apply coerce_row_with_idem.
  - pose proof (coerce_columns_repeated str_to_num numeric_columns df Hu) as Hr.
    fold (clean_dataframe str_to_num df) in Hr. congruence.
Qed.

(** X3. In the frame [clean_dataframe] returns, every cell under a label
    of the allow-list is a number or [nan]: no string and no [None] is
    left there. *)
Theorem cleaned_numeric_columns_hold_numbers
        (str_to_num : string -> option Q) (df df' : DataFrame)
        (i j : nat) (c : string) (v : value) :
  clean_dataframe str_to_num df = Ok df' ->
  nth_error (columns df') j = Some c ->
  In c numeric_columns ->
  cell df' i j = Some v ->
  numeric_or_nan v = true.
Proof.
  intros H Hc Hin Hcell.
  destruct (labels_unique numeric_columns (columns df)) eqn:Hu.
  - rewrite (clean_dataframe_spec str_to_num df Hu) in H.
    injection H as H. subst df'. cbn [columns] in Hc.
    unfold cell in Hcell. cbn [data] in Hcell.
    rewrite nth_error_map in Hcell.
    destruct (nth_error (data df) i) as [row |]; [| discriminate].
    cbn [option_map] in Hcell. unfold coerce_row in Hcell.
    rewrite coerce_row_with_nth, Hc in Hcell.
    rewrite (proj2 (mem_str_In c numeric_columns) Hin) in Hcell.
    destruct (nth_error row j) as [v0 |]; [| discriminate].
    injection Hcell as Hcell. subst v. apply to_numeric_cell_numeric.
  - pose proof (coerce_columns_repeated str_to_num numeric_columns df Hu) as Hr.
    fold (clean_dataframe str_to_num df) in Hr. congruence.
Qed.

(** ** The scraper, whatever the page *)

Lemma max_width_ge (r : list value) (rows : list (list value)) :
  In r rows -> (length r <= max_width rows)%nat.
Proof.
  induction rows as [| x rest IH]; simpl; [contradiction |].
  intros [H | H].
  - subst. apply Nat.le_max_l.
  - etransitivity; [apply IH, H | apply Nat.le_max_r].
Qed.

Lemma pad_length (w : nat) (r : list value) :
  (length r <= w)%nat -> length (pad w r) = w.
Proof.
  intros H. unfold pad. rewrite length_app, repeat_length. lia.
Qed.

Lemma pad_nth_beyond (w j : nat) (r : list value) :
  (length r <= j)%nat -> (j < w)%nat -> nth_error (pad w r) j = Some VNone.
Proof.
  intros H1 H2. unfold pad. rewrite nth_error_app2 by exact H1.
  apply nth_error_repeat. lia.
Qed.

Lemma extract_rows_row_values (trs : list table_row) :
  extract_rows trs = map row_values (data_rows trs).
Proof. apply extract_rows_data_rows. Qed.

(** [pd.DataFrame(rows, columns=cols)], when it returns. *)
Lemma new_frame_ok (rows : list (list value)) (cols : list string)
      (df : DataFrame) :
  new_frame rows cols = Ok df ->
  df = mkDF cols (map (pad (max_width rows)) rows)
  /\ (rows <> [] -> max_width rows = length cols).
Proof.
  unfold new_frame. destruct rows as [| r rest].
  - intros H. injection H as H. subst. split; [reflexivity | congruence].
  - destruct (Nat.eqb_spec (max_width (r :: rest)) (length cols)) as [E | E];
      [| discriminate].
    intros H. injection H as H. subst. split; [reflexivity | intros _; exact E].
Qed.

Lemma new_frame_mismatch (rows : list (list value)) (cols : list string) :
  rows <> [] ->
  max_width rows <> length cols ->
  new_frame rows cols = Raise ValueError.
Proof.
  intros Hne Hw. unfold new_frame. destruct rows as [| r rest]; [congruence |].
  destruct (Nat.eqb_spec (max_width (r :: rest)) (length cols)); congruence.
Qed.

Lemma new_frame_match (rows : list (list value)) (cols : list string) :
  max_width rows = length cols ->
  new_frame rows cols = Ok (mkDF cols (map (pad (length cols)) rows)).
Proof.
  intros Hw. unfold new_frame. destruct rows as [| r rest]; [reflexivity |].
  rewrite Hw, Nat.eqb_refl. reflexivity.
Qed.

Section ScraperMore.

Variable str_to_num : string -> option Q.
Variable http_get : string -> http_reply.

(** The frame built from a header row and a body, when one is built. *)
Lemma build_frame_ok (headers : list string) (trs : list table_row)
      (df : DataFrame) :
  rbind (new_frame (extract_rows trs) headers) (clean_dataframe str_to_num)
  = Ok df ->
  labels_unique numeric_columns headers = true
  /\ (data_rows trs <> [] -> widest trs = length headers)
  /\ df = mkDF headers
            (map (fun r => coerce_row str_to_num headers
                             (pad (widest trs) (row_values r)))
                 (data_rows trs)).
Proof.
  rewrite extract_rows_row_values. unfold rbind.
  destruct (new_frame (map row_values (data_rows trs)) headers)
    as [df0 |] eqn:Hnew; [| discriminate].
  apply new_frame_ok in Hnew. destruct Hnew as [Hdf0 Hw]. subst df0.
  intros Hclean.
  destruct (labels_unique numeric_columns headers) eqn:Hu.
  - rewrite clean_dataframe_spec in Hclean by exact Hu.
    injection Hclean as Hclean. subst df. cbn [columns data].
    split; [reflexivity |]. split.
    + intros Hne. apply Hw. intros E. apply Hne.
      now apply map_eq_nil in E.
    + rewrite !map_map. reflexivity.
  - pose proof (coerce_columns_repeated str_to_num numeric_columns
                  (mkDF headers
                     (map (pad (max_width (map row_values (data_rows trs))))
                          (map row_values (data_rows trs)))) Hu) as Hr.
    unfold clean_dataframe in Hclean. congruence.
Qed.

(** The pages from which [scrape_page] builds a frame with rows. *)
Lemma scrape_page_nonempty (reply : http_reply) (df : DataFrame) :
  scrape_page str_to_num reply = Ok df ->
  empty df = false ->
  exists status t headers_row trs,
    reply = Response status (Some t)
    /\ is_error_status status = false
    /\ thead t = Some (Some headers_row)
    /\ tbody t = Some trs
    /\ data_rows trs <> []
    /\ widest trs = length headers_row
    /\ labels_unique numeric_columns (map header_label headers_row) = true
    /\ columns df = map header_label headers_row
    /\ len df = length (data_rows trs).
Proof.
  unfold scrape_page.
  destruct reply as [| status [t |]]; try discriminate;
    destruct (is_error_status status) eqn:Hst; try discriminate;
    try (intros H; injection H as H; subst df; discriminate).
  destruct (thead t) as [[headers_row |] |] eqn:Hhead;
    try (intros H; injection H as H; subst df; discriminate).
  destruct (tbody t) as [trs |] eqn:Hbody;
    try (intros H; injection H as H; subst df; discriminate).
  intros H Hne. apply build_frame_ok in H. destruct H as (Hu & Hw & Hdf).
  assert (Hrows : data_rows trs <> []).
  { intros E. subst df. rewrite E in Hne. discriminate. }
  exists status, t, headers_row, trs. repeat split; auto.
  - rewrite length_map in Hw. now apply Hw.
  - now subst df.
  - subst df. unfold len. cbn [data]. apply length_map.
Qed.

Lemma scrape_page_rectangular (reply : http_reply) (df : DataFrame) :
  scrape_page str_to_num reply = Ok df -> rectangular df.
Proof.
  unfold scrape_page, rectangular.
  destruct reply as [| status [t |]]; try discriminate;
    destruct (is_error_status status) eqn:Hst; try discriminate;
    try (intros H; injection H as H; subst df; constructor).
  destruct (thead t) as [[headers_row |] |] eqn:Hhead;
    try (intros H; injection H as H; subst df; constructor).
  destruct (tbody t) as [trs |] eqn:Hbody;
    try (intros H; injection H as H; subst df; constructor).
  intros H. apply build_frame_ok in H. destruct H as (Hu & Hw & Hdf).
  subst df. cbn [columns data]. apply Forall_forall.
  intros row Hrow. apply in_map_iff in Hrow. destruct Hrow as [r [Hr Hin]].
  subst row. unfold coerce_row. rewrite coerce_row_with_length.
  assert (Hne : data_rows trs <> [])
    by (intros E; rewrite E in Hin; contradiction).
  rewrite <- (Hw Hne). apply pad_length. unfold widest.
  apply max_width_ge. now apply in_map.
Qed.

End ScraperMore.

(** X4. Whatever the reply, the scraper issues one GET and returns a frame
    without raising, and the frame is rectangular: every row has one cell
    per column label. *)
Theorem scrape_birthplaces_rectangular
        (str_to_num : string -> option Q) (http_get : string -> http_reply)
        (country state : string) (offset : Z) (tr : trace) :
  exists df,
    scrape_birthplaces str_to_num http_get country state offset tr
    = Some (Ok df, (tr ++ [EvGet (build_url country state offset)])%list)
    /\ rectangular df.
Proof.
  unfold scrape_birthplaces, bind, emit, ret.
  destruct (scrape_page str_to_num (http_get (build_url country state offset)))
    as [df | e] eqn:Hpage.
  - exists df. split; [reflexivity |].
    eapply scrape_page_rectangular, Hpage.
  - exists empty_frame. split; [reflexivity | constructor].
Qed.

(** X5. The scraper returns a frame with rows and columns only for a reply
    whose status is no error and which holds the table with a header row
    and a body, at least one data row, a longest data row with as many
    cells as the header row, and no allow-list label heading two columns;
    the frame then has the labels of the header row and one row per data
    row. *)
Theorem nonempty_scrape_needs_full_table
        (str_to_num : string -> option Q) (http_get : string -> http_reply)
        (country state : string) (offset : Z) (tr tr' : trace)
        (df : DataFrame) :
  scrape_birthplaces str_to_num http_get country state offset tr
  = Some (Ok df, tr') ->
  empty df = false ->
  exists status t headers_row trs,
    http_get (build_url country state offset) = Response status (Some t)
    /\ is_error_status status = false
    /\ thead t = Some (Some headers_row)
    /\ tbody t = Some trs
    /\ data_rows trs <> []
    /\ widest trs = length headers_row
    /\ labels_unique numeric_columns (map header_label headers_row) = true
    /\ columns df = map header_label headers_row
    /\ len df = length (data_rows trs).
Proof.
  unfold scrape_birthplaces, bind, emit, ret. intros H Hne.
  destruct (scrape_page str_to_num (http_get (build_url country state offset)))
    as [df0 | e] eqn:Hpage.
  - injection H as H _. subst df0.
    exact (scrape_page_nonempty str_to_num _ df Hpage Hne).
  - injection H as H _. subst df. discriminate.
Qed.

(** X6. When the longest data row has as many cells as the header row, the
    scraper keeps every data row, also the shorter ones: a position a row
    has no cell for holds an absent value. *)
Theorem short_rows_are_filled
        (str_to_num : string -> option Q) (http_get : string -> http_reply)
        (country state : string) (offset : Z) (status : Z) (t : html_table)
        (headers_row : list header_cell) (trs : list table_row) (tr : trace) :
  http_get (build_url country state offset) = Response status (Some t) ->
  is_error_status status = false ->
  thead t = Some (Some headers_row) ->
  tbody t = Some trs ->
  widest trs = length headers_row ->
  labels_unique numeric_columns (map header_label headers_row) = true ->
  exists df,
    scrape_birthplaces str_to_num http_get country state offset tr
    = Some (Ok df, (tr ++ [EvGet (build_url country state offset)])%list)
    /\ columns df = map header_label headers_row
    /\ len df = length (data_rows trs)
    /\ (forall i j r,
           nth_error (data_rows trs) i = Some r ->
           (length (cells r) <= j)%nat ->
           (j < length headers_row)%nat ->
           exists v, cell df i j = Some v /\ isna v = true).
Proof.
  intros Hget Hst Hhead Hbody Hw Hu.
  unfold scrape_birthplaces, bind, emit, ret. rewrite Hget.
  unfold scrape_page. rewrite Hst, Hhead, Hbody.
  rewrite extract_rows_row_values.
  rewrite new_frame_match by (rewrite length_map; exact Hw).
  unfold rbind. rewrite clean_dataframe_spec by exact Hu.
  eexists. split; [reflexivity |]. cbn [columns data].
  split; [reflexivity |]. split.
  - unfold len. cbn [data]. now rewrite !length_map.
  - intros i j r Hr Hlo Hhi. unfold cell. cbn [data].
    rewrite !map_map, nth_error_map, Hr. cbn [option_map].
    unfold coerce_row. rewrite coerce_row_with_nth.
    rewrite pad_nth_beyond.
    + destruct (nth_error (map header_label headers_row) j) as [lbl |].
      * destruct (mem_str lbl numeric_columns); eexists; split; reflexivity.
      * eexists; split; reflexivity.
    + unfold row_values. now rewrite length_map.
    + now rewrite length_map.
Qed.

(** X7. When the page has data rows and the longest has more or fewer cells
    than the header row, the frame cannot be built and the scraper returns
    the empty frame: every row of the page is lost. *)
Theorem width_mismatch_gives_empty_frame
        (str_to_num : string -> option Q) (http_get : string -> http_reply)
        (country state : string) (offset : Z) (status : Z) (t : html_table)
        (headers_row : list header_cell) (trs : list table_row) (tr : trace) :
  http_get (build_url country state offset) = Response status (Some t) ->
  thead t = Some (Some headers_row) ->
  tbody t = Some trs ->
  data_rows trs <> [] ->
  widest trs <> length headers_row ->
  scrape_birthplaces str_to_num http_get country state offset tr
  = Some (Ok empty_frame, (tr ++ [EvGet (build_url country state offset)])%list).
Proof.
  intros Hget Hhead Hbody Hne Hw.
  unfold scrape_birthplaces, bind, emit, ret. rewrite Hget.
  unfold scrape_page. destruct (is_error_status status); [reflexivity |].
  rewrite Hhead, Hbody, extract_rows_row_values.
  rewrite new_frame_mismatch; [reflexivity | |].
  - intros E. apply map_eq_nil in E. contradiction.
  - now rewrite length_map.
Qed.

(** X8. When two cells of the header row carry the same allow-list label,
    the scraper returns the empty frame, whatever the body holds. *)
Theorem repeated_numeric_header_gives_empty_frame
        (str_to_num : string -> option Q) (http_get : string -> http_reply)
        (country state : string) (offset : Z) (status : Z) (t : html_table)
        (headers_row : list header_cell) (tr : trace) :
  http_get (build_url country state offset) = Response status (Some t) ->
  thead t = Some (Some headers_row) ->
  labels_unique numeric_columns (map header_label headers_row) = false ->
  scrape_birthplaces str_to_num http_get country state offset tr
  = Some (Ok empty_frame, (tr ++ [EvGet (build_url country state offset)])%list).
Proof.
  intros Hget Hhead Hu.
  unfold scrape_birthplaces, bind, emit, ret. rewrite Hget.
  unfold scrape_page. destruct (is_error_status status); [reflexivity |].
  rewrite Hhead. destruct (tbody t) as [trs |]; [| reflexivity].
  destruct (rbind (new_frame (extract_rows trs) (map header_label headers_row))
                  (clean_dataframe str_to_num)) as [df | e] eqn:Hframe;
    [| reflexivity].
  apply build_frame_ok in Hframe. destruct Hframe as [Hu' _]. congruence.
Qed.

(** ** The pagination driver, whatever the row *)

Section DriverMore.

Variable str_to_num : string -> option Q.
Variable http_get : string -> http_reply.

(** What [load_location_df] does, by the count of the row, once it has
    fuel for one test of the loop condition. *)
Lemma load_location_df_cases (fuel : nat) (row : Series) (tr : trace) :
  load_location_df str_to_num http_get (S fuel) row tr
  = match row_get row "# of Pros" (VNum 0) with
    | VNum q =>
        if Qle_bool 1 q then None
        else Some (Ok empty_frame, (tr ++ [EvSleep 3])%list)
    | VNaN => Some (Ok empty_frame, (tr ++ [EvSleep 3])%list)
    | VNone | VStr _ => Some (Raise TypeError, (tr ++ [EvSleep 3])%list)
    end.
Proof.
  unfold load_location_df, bind, emit, lift.
  destruct (row_get row "# of Pros" (VNum 0)) as [| | s | q];
    try reflexivity.
  cbn [lt_int]. change (inject_Z 1) with 1%Q.
  destruct (Qle_bool 1 q) eqn:Hq; cbn [negb]; [| reflexivity].
  apply while_loop_stuck.
  apply Qle_bool_iff. apply Qle_bool_iff in Hq.
  eapply Qle_trans; [| exact Hq]. discriminate.
Qed.

Lemma load_location_df_no_fuel (row : Series) (tr : trace) :
  load_location_df str_to_num http_get 0 row tr
  = match row_get row "# of Pros" (VNum 0) with
    | VNum q =>
        if Qle_bool 1 q then None
        else Some (Ok empty_frame, (tr ++ [EvSleep 3])%list)
    | VNaN => None
    | VNone | VStr _ => Some (Raise TypeError, (tr ++ [EvSleep 3])%list)
    end.
Proof.
  unfold load_location_df, bind, emit, lift.
  destruct (row_get row "# of Pros" (VNum 0)) as [| | s | q];
    try reflexivity.
  cbn [lt_int]. change (inject_Z 1) with 1%Q.
  destruct (Qle_bool 1 q); reflexivity.
Qed.

(** The scraper always returns a frame, after one GET. *)
Lemma scrape_birthplaces_returns (country state : string) (offset : Z)
      (tr : trace) :
  exists df,
    scrape_birthplaces str_to_num http_get country state offset tr
    = Some (Ok df, (tr ++ [EvGet (build_url country state offset)])%list).
Proof.
  unfold scrape_birthplaces, bind, emit, ret. eexists. reflexivity.
Qed.

End DriverMore.

(** X9. A call of [load_location_df] that returns has slept once and done
    nothing else (no GET, no file written), and it has returned the empty
    frame or raised [TypeError]. *)
Theorem driver_never_fetches
        (str_to_num : string -> option Q) (http_get : string -> http_reply)
        (fuel : nat) (row : Series) (tr tr' : trace) (r : result DataFrame) :
  load_location_df str_to_num http_get fuel row tr = Some (r, tr') ->
  tr' = (tr ++ [EvSleep 3])%list
  /\ (r = Ok empty_frame \/ r = Raise TypeError).
Proof.
  destruct fuel as [| fuel].
  - rewrite load_location_df_no_fuel.
    destruct (row_get row "# of Pros" (VNum 0)) as [| | s | q];
      try discriminate;
      try (intros H; injection H as H1 H2; subst; auto).
    destruct (Qle_bool 1 q); [discriminate |].
    intros H; injection H as H1 H2; subst; auto.
  - rewrite load_location_df_cases.
    destruct (row_get row "# of Pros" (VNum 0)) as [| | s | q];
      try (intros H; injection H as H1 H2; subst; auto).
    destruct (Qle_bool 1 q); [discriminate |].
    intros H; injection H as H1 H2; subst; auto.
Qed.

(** X10. [load_location_df] fails to return, whatever the fuel, exactly for
    the rows whose [# of Pros] is a number that is at least one. *)
Theorem driver_diverges_iff
        (str_to_num : string -> option Q) (http_get : string -> http_reply)
        (row : Series) (tr : trace) :
  (forall fuel, load_location_df str_to_num http_get fuel row tr = None)
  <-> (exists q, row_get row "# of Pros" (VNum 0) = VNum q /\ (1 <= q)%Q).
Proof.
  split.
  - intros H. specialize (H 1%nat). rewrite load_location_df_cases in H.
    destruct (row_get row "# of Pros" (VNum 0)) as [| | s | q];
      try discriminate.
    destruct (Qle_bool 1 q) eqn:Hq; [| discriminate].
    exists q. split; [reflexivity | now apply Qle_bool_iff].
  - intros [q [Hrow Hq]] fuel. apply Qle_bool_iff in Hq.
    destruct fuel as [| fuel].
    + rewrite load_location_df_no_fuel, Hrow, Hq. reflexivity.
    + rewrite load_location_df_cases, Hrow, Hq. reflexivity.
Qed.

(** ** The loop away from offset 0 *)

Section LoopMore.

Variable str_to_num : string -> option Q.
Variable http_get : string -> http_reply.

Lemma ge_int_floor (q : Q) (offset : Z) :
  Qle_bool (inject_Z offset) q = true <-> (offset <= Qfloor q)%Z.
Proof.
  rewrite Qle_bool_iff. split.
  - intros H. rewrite <- (Qfloor_Z offset). now apply Qfloor_resp_le.
  - intros H. eapply Qle_trans; [| apply Qfloor_le].
    now rewrite <- Zle_Qle.
Qed.

(** One turn of the loop, written out. *)
Lemma while_loop_turn (fuel : nat) (c s p : value) (offset : Z)
      (out_df : DataFrame) (tr : trace) :
  while_loop str_to_num http_get (S fuel) c s p offset out_df tr
  = (continue <- lift (ge_int p offset) ;;
     if continue : bool then
       if (0 <? offset)%Z then
         country <- lift (value_replace_space c) ;;
         state <- lift (value_replace_space s) ;;
         df <- scrape_birthplaces str_to_num http_get country state offset ;;
         if empty df then ret out_df
         else
           out_df' <- lift (concat out_df df) ;;
           let _location :=
             match c, s with
             | VStr c0, VStr s0 => c0 ++ "_" ++ s0
             | _, _ => ""
             end in
           save_data df _location ;;;
           while_loop str_to_num http_get fuel c s p (offset + 200)%Z out_df'
       else while_loop str_to_num http_get fuel c s p offset out_df
     else ret out_df) tr.
Proof. reflexivity. Qed.

(** From a positive offset every turn of the loop moves the offset on by
    200, so the loop returns once the offset has passed the count. *)
Lemma while_loop_returns (n : nat) (c s : value) (q : Q) :
  forall (offset : Z) (out_df : DataFrame) (tr : trace),
    (0 < offset)%Z ->
    (Qfloor q - offset < 200 * Z.of_nat n)%Z ->
    while_loop str_to_num http_get (S n) c s (VNum q) offset out_df tr <> None.
Proof.
  induction n as [| n IH]; intros offset out_df tr Hpos Hm;
    rewrite while_loop_turn; unfold bind at 1; unfold lift at 1;
    cbn [ge_int];
    destruct (Qle_bool (inject_Z offset) q) eqn:Hge; try discriminate.
  - apply ge_int_floor in Hge. lia.
  - destruct (Z.ltb_spec 0 offset) as [_ | Hle]; [| lia].
    unfold bind at 1. unfold lift at 1.
    destruct (value_replace_space c) as [country | e]; [| discriminate].
    unfold bind at 1. unfold lift at 1.
    destruct (value_replace_space s) as [state | e]; [| discriminate].
    unfold bind at 1.
    destruct (scrape_birthplaces_returns str_to_num http_get country state
                offset tr) as [df Hscrape].
    rewrite Hscrape.
    destruct (empty df); [discriminate |].
    unfold bind at 1. unfold lift at 1.
    destruct (concat out_df df) as [out_df' | e]; [| discriminate].
    unfold bind at 1. unfold save_data, emit.
    apply IH; lia.
Qed.

End LoopMore.


(** ** The catalog, row by row *)

Section LoaderMore.

Variable str_to_num : string -> option Q.

(** The frame the loader returns for a file that is there. *)
Lemma load_locations_df_data (file out : DataFrame) :
  load_locations_df str_to_num (Some file) = Ok out ->
  out = mkDF expected_columns
          (sort_rows (sort_key "# of Pros" expected_columns)
             (map (coerce_row str_to_num expected_columns)
                (filter (fun r => negb (existsb isna r))
                   (map (reindex (columns file) expected_columns)
                      (data file))))).
Proof.
  unfold load_locations_df, select.
  destruct (forallb (fun c => mem_str c (columns file)) expected_columns);
    [| discriminate].
  unfold rbind. rewrite clean_dataframe_spec by reflexivity.
  unfold sort_values_desc. cbn [columns data dropna].
  replace (mem_str "# of Pros" expected_columns) with true by reflexivity.
  intros H. now injection H.
Qed.

Lemma coerced_row_is_catalog_row (src : list string) (row : list value) :
  existsb isna (reindex src expected_columns row) = false ->
  catalog_row (coerce_row str_to_num expected_columns
                 (reindex src expected_columns row)).
Proof.
  unfold reindex, expected_columns. cbn [map existsb].
  set (f := lookup_or_nan src row).
  intros H. repeat (apply orb_false_iff in H; destruct H as [? H]).
  unfold catalog_row.
  exists (f "Country"), (f "State"),
    (to_numeric_cell str_to_num (f "# of Pros")),
    (to_numeric_cell str_to_num (f "# Active")),
    (to_numeric_cell str_to_num (f "# of HOF")),
    (to_numeric_cell str_to_num (f "G")).
  repeat split; try assumption; try apply to_numeric_cell_numeric.
Qed.

Lemma load_locations_df_rows (file out : DataFrame) :
  load_locations_df str_to_num (Some file) = Ok out ->
  Forall catalog_row (data out).
Proof.
  intros H. apply load_locations_df_data in H. subst out. cbn [data].
  eapply Permutation_Forall; [apply Permutation_sym, sort_rows_perm |].
  apply Forall_forall. intros r Hr.
  apply in_map_iff in Hr. destruct Hr as [r0 [Hr Hin]]. subst r.
  apply filter_In in Hin. destruct Hin as [Hin Hcomplete].
  apply in_map_iff in Hin. destruct Hin as [row [Hr0 _]]. subst r0.
  apply coerced_row_is_catalog_row.
  now apply negb_true_iff in Hcomplete.
Qed.

End LoaderMore.

(** X12. For a file that is there, the frame the loader returns has the
    six expected labels, at most as many rows as the file, and every row
    has six cells: a country and a state that are present, and four counts
    that are numbers or [nan]. *)
Theorem loader_rows_are_catalog_rows
        (str_to_num : string -> option Q) (file out : DataFrame) :
  load_locations_df str_to_num (Some file) = Ok out ->
  columns out = expected_columns
  /\ (len out <= len file)%nat
  /\ Forall catalog_row (data out).
Proof.
  intros H. split; [| split].
  - apply load_locations_df_data in H. now subst out.
  - apply load_locations_df_data in H. subst out. unfold len. cbn [data].
    rewrite (Permutation_length (sort_rows_perm _ _)), length_map.
    etransitivity; [apply filter_length_le |]. now rewrite length_map.
  - eapply load_locations_df_rows, H.
Qed.

(** ** The batch run *)

Lemma concat_empty_frames : concat empty_frame empty_frame = Ok empty_frame.
Proof. reflexivity. Qed.

Lemma repeat_snoc {A : Type} (x : A) (n : nat) (l : list A) :
  ((l ++ [x]) ++ repeat x n = l ++ repeat x (S n))%list.
Proof. now rewrite <- app_assoc. Qed.

Lemma catalog_row_series (r : list value) :
  catalog_row r -> series_count_ok (combine expected_columns r).
Proof.
  intros (country & state & pros & active & hof & games & Hr & _ & _ & Hp & _).
  subst r. exact Hp.
Qed.

Lemma known_pro_count_series (r : list value) (q : Q) :
  known_pro_count r = Some q ->
  row_get (combine expected_columns r) "# of Pros" (VNum 0) = VNum q.
Proof.
  rewrite <- sort_key_known_pro_count. unfold sort_key, row_get.
  destruct (series_lookup "# of Pros" (combine expected_columns r))
    as [[| | s | q'] |]; try discriminate.
  intros H. now injection H as ->.
Qed.

Lemma series_known_pro_count (r : list value) (q : Q) :
  catalog_row r ->
  row_get (combine expected_columns r) "# of Pros" (VNum 0) = VNum q ->
  known_pro_count r = Some q.
Proof.
  intros (country & state & pros & active & hof & games & Hr & _) H.
  subst r. cbv in H. subst pros. reflexivity.
Qed.

Section BatchMore.

Variable str_to_num : string -> option Q.
Variable http_get : string -> http_reply.

(** A call of the driver that returns a frame. *)
Lemma load_location_df_ok (fuel : nat) (row : Series) (tr tr' : trace)
      (df : DataFrame) :
  load_location_df str_to_num http_get fuel row tr = Some (Ok df, tr') ->
  df = empty_frame /\ tr' = (tr ++ [EvSleep 3])%list.
Proof.
  destruct fuel as [| fuel];
    [rewrite load_location_df_no_fuel | rewrite load_location_df_cases];
    destruct (row_get row "# of Pros" (VNum 0)) as [| | s | q];
    try discriminate;
    try (intros H; injection H as H1 H2; subst; auto);
    destruct (Qle_bool 1 q); try discriminate;
    intros H; injection H as H1 H2; subst; auto.
Qed.

(** The loop of [load_birthplaces], when it returns a frame. *)
Lemma for_rows_ok (fuel : nat) (rows : list Series) (tr tr' : trace)
      (c : DataFrame) :
  for_rows str_to_num http_get fuel rows empty_frame tr = Some (Ok c, tr') ->
  c = empty_frame /\ tr' = (tr ++ repeat (EvSleep 3) (length rows))%list.
Proof.
  revert tr. induction rows as [| row rest IH]; intros tr H.
  - cbn in H. injection H as H1 H2. subst. now rewrite app_nil_r.
  - cbn [for_rows] in H. unfold bind at 1 in H.
    destruct (load_location_df str_to_num http_get fuel row tr)
      as [[[df | e] tr1] |] eqn:Hdrv; try discriminate.
    apply load_location_df_ok in Hdrv. destruct Hdrv as [-> ->].
    unfold bind at 1 in H. unfold lift at 1 in H.
    rewrite concat_empty_frames in H.
    apply IH in H. destruct H as [-> ->]. split; [reflexivity |].
    cbn [length]. apply repeat_snoc.
Qed.

(** The loop does not return once it meets a row with players. *)
Lemma for_rows_diverges (fuel : nat) (rows : list Series) (tr : trace) :
  Forall series_count_ok rows ->
  Exists series_has_players rows ->
  for_rows str_to_num http_get fuel rows empty_frame tr = None.
Proof.
  intros Hok Hex. revert tr.
  induction Hok as [| row rest Hrow Hrest IH]; intros tr.
  - inversion Hex.
  - cbn [for_rows]. unfold bind at 1.
    destruct (load_location_df str_to_num http_get fuel row tr)
      as [[[df | e] tr1] |] eqn:Hdrv; [| | reflexivity].
    + pose proof Hdrv as Hdrv'.
      apply load_location_df_ok in Hdrv'. destruct Hdrv' as [-> ->].
      unfold bind at 1. unfold lift at 1. rewrite concat_empty_frames.
      apply IH. inversion Hex as [? ? Hhere | ? ? Hlater]; subst;
        [| exact Hlater].
      exfalso. destruct Hhere as [q [Hq Hle]].
      apply Qle_bool_iff in Hle.
      destruct fuel as [| fuel];
        [rewrite load_location_df_no_fuel in Hdrv
        | rewrite load_location_df_cases in Hdrv];
        rewrite Hq, Hle in Hdrv; discriminate.
    + exfalso. unfold series_count_ok in Hrow.
      destruct fuel as [| fuel];
        [rewrite load_location_df_no_fuel in Hdrv
        | rewrite load_location_df_cases in Hdrv];
        destruct (row_get row "# of Pros" (VNum 0)) as [| | s | q];
        try discriminate;
        destruct (Qle_bool 1 q); discriminate.
Qed.

(** The loop returns when no row has players. *)
Lemma for_rows_returns (fuel : nat) (rows : list Series) (tr : trace) :
  Forall series_count_ok rows ->
  Forall (fun row => ~ series_has_players row) rows ->
  for_rows str_to_num http_get (S fuel) rows empty_frame tr
  = Some (Ok empty_frame, (tr ++ repeat (EvSleep 3) (length rows))%list).
Proof.
  intros Hok Hnone. revert tr.
  induction Hok as [| row rest Hrow Hrest IH]; intros tr.
  - cbn. now rewrite app_nil_r.
  - inversion Hnone as [| ? ? Hhere Hlater]; subst.
    cbn [for_rows]. unfold bind at 1. rewrite load_location_df_cases.
    unfold series_count_ok in Hrow. unfold series_has_players in Hhere.
    destruct (row_get row "# of Pros" (VNum 0)) as [| | s | q];
      try discriminate.
    + unfold bind at 1. unfold lift at 1. rewrite concat_empty_frames.
      rewrite (IH Hlater). cbn [length]. now rewrite repeat_snoc.
    + destruct (Qle_bool 1 q) eqn:Hq.
      * exfalso. apply Hhere. exists q. split; [reflexivity |].
        now apply Qle_bool_iff.
      * unfold bind at 1. unfold lift at 1. rewrite concat_empty_frames.
        rewrite (IH Hlater). cbn [length]. now rewrite repeat_snoc.
Qed.

End BatchMore.

Lemma iterrows_catalog (locations : DataFrame) :
  columns locations = expected_columns ->
  Forall catalog_row (data locations) ->
  Forall series_count_ok (iterrows locations).
Proof.
  intros Hcols Hrows. unfold iterrows. rewrite Hcols, Forall_map.
  eapply Forall_impl; [| exact Hrows]. apply catalog_row_series.
Qed.

(** The rows of the frame the loader returns, as the batch run sees them. *)
Lemma loader_series (str_to_num : string -> option Q)
      (birthlocations_csv : option DataFrame) (locations : DataFrame) :
  load_locations_df str_to_num birthlocations_csv = Ok locations ->
  Forall series_count_ok (iterrows locations)
  /\ (Exists has_players (data locations) ->
      Exists series_has_players (iterrows locations))
  /\ (Forall (fun r => ~ has_players r) (data locations) ->
      Forall (fun row => ~ series_has_players row) (iterrows locations)).
Proof.
  destruct birthlocations_csv as [file |].
  - intros H. pose proof (load_locations_df_rows str_to_num file locations H)
      as Hrows.
    apply load_locations_df_data in H.
    assert (Hcols : columns locations = expected_columns) by now subst.
    split; [now apply iterrows_catalog |].
    unfold iterrows. rewrite Hcols. split.
    + intros Hex. rewrite Exists_map. eapply Exists_impl; [| exact Hex].
      intros r [q [Hq Hle]]. exists q. split; [| exact Hle].
      now apply known_pro_count_series.
    + intros Hnone. rewrite Forall_map.
      rewrite Forall_forall in *. intros r Hr [q [Hq Hle]].
      apply (Hnone r Hr). exists q. split; [| exact Hle].
      apply series_known_pro_count; [now apply Hrows | exact Hq].
  - intros H. cbn in H. injection H as <-. cbn.
    repeat split; try constructor. intros Hex. inversion Hex.
Qed.

(** X13. A batch run that completes has contacted the site not once: it
    has slept once per catalog row and then written one file, the
    consolidated one, holding the empty frame. *)
Theorem completed_batch_saves_empty_frame
        (str_to_num : string -> option Q) (http_get : string -> http_reply)
        (birthlocations_csv : option DataFrame) (fuel : nat) (tr tr' : trace) :
  load_birthplaces str_to_num http_get birthlocations_csv fuel tr
  = Some (Ok tt, tr') ->
  exists locations,
    load_locations_df str_to_num birthlocations_csv = Ok locations
    /\ tr' = (tr ++ repeat (EvSleep 3) (len locations)
                 ++ [EvSave "./data/nfl_players_birthplaces_consolidated.csv"
                            empty_frame])%list.
Proof.
  unfold load_birthplaces. unfold bind at 1. unfold lift at 1. intros H.
  destruct (load_locations_df str_to_num birthlocations_csv)
    as [locations | e]; [| discriminate].
  unfold bind at 1 in H.
  destruct (for_rows str_to_num http_get fuel (iterrows locations)
                     empty_frame tr) as [[[c | e] tr1] |] eqn:Hloop;
    try discriminate.
  apply for_rows_ok in Hloop. destruct Hloop as [-> ->].
  unfold save_data, emit in H. injection H as <-.
  exists locations. split; [reflexivity |].
  unfold iterrows. rewrite length_map. now rewrite <- app_assoc.
Qed.


(** X15. When no row of the catalog the loader returns has a count that is
    a number at least one, the batch run returns as soon as it has fuel for
    one test of the loop condition: it sleeps once per row and saves the
    empty frame as the consolidated file. *)
Theorem batch_returns_on_unpopulated_catalog
        (str_to_num : string -> option Q) (http_get : string -> http_reply)
        (birthlocations_csv : option DataFrame) (locations : DataFrame)
        (fuel : nat) (tr : trace) :
  load_locations_df str_to_num birthlocations_csv = Ok locations ->
  Forall (fun r => ~ has_players r) (data locations) ->
  load_birthplaces str_to_num http_get birthlocations_csv (S fuel) tr
  = Some (Ok tt,
          (tr ++ repeat (EvSleep 3) (len locations)
              ++ [EvSave "./data/nfl_players_birthplaces_consolidated.csv"
                         empty_frame])%list).
Proof.
  intros Hload Hnone.
  destruct (loader_series str_to_num birthlocations_csv locations Hload)
    as (Hok & _ & Hall).
  unfold load_birthplaces. unfold bind at 1. unfold lift at 1.
  rewrite Hload. unfold bind at 1.
  rewrite for_rows_returns; [| exact Hok | now apply Hall].
  unfold save_data, emit. unfold iterrows. rewrite length_map.
  now rewrite <- app_assoc.
Qed.

(** X16. When the reference file lacks one of the six expected columns,
    the batch run stops with [KeyError] before anything else happens: no
    sleep, no request, no file written. *)
Theorem batch_raises_on_missing_column
        (str_to_num : string -> option Q) (http_get : string -> http_reply)
        (file : DataFrame) (c : string) (fuel : nat) (tr : trace) :
  In c expected_columns ->
  ~ In c (columns file) ->
  load_birthplaces str_to_num http_get (Some file) fuel tr
  = Some (Raise KeyError, tr).
Proof.
  intros Hc Hmissing.
  unfold load_birthplaces. unfold bind at 1. unfold lift at 1.
  unfold load_locations_df, select.
  destruct (forallb (fun c0 => mem_str c0 (columns file)) expected_columns)
    eqn:E; [| reflexivity].
  exfalso. apply Hmissing.
  now apply (proj1 (expected_columns_present (columns file)) E).
Qed.

(** C8. The batch run on a reference file with one location that has
    players (USA, TX, 250): the loader returns the catalog with this one
    row, the pagination driver returns within no amount of fuel for it, and
    so does the batch run.  The consolidated output is never produced: the
    [save_data] that follows the loop is not reached. *)
Theorem populated_catalog_is_never_consolidated
        (str_to_num : string -> option Q) (http_get : string -> http_reply)
        (fuel : nat) (tr : trace) :
  load_locations_df str_to_num (Some Samples.catalog_texas)
  = Ok Samples.catalog_texas
  /\ iterrows Samples.catalog_texas = [location_record "USA" "TX" 250 12 3 40000]
  /\ load_location_df str_to_num http_get fuel
                      (location_record "USA" "TX" 250 12 3 40000) tr = None
  /\ load_birthplaces str_to_num http_get (Some Samples.catalog_texas) fuel tr
     = None.
Proof.
  assert (Hload : load_locations_df str_to_num (Some Samples.catalog_texas)
                  = Ok Samples.catalog_texas) by reflexivity.
  split; [exact Hload |]. split; [reflexivity |]. split.
  - apply load_location_df_stuck. lia.
  - unfold load_birthplaces. unfold bind at 1. unfold lift at 1.
    rewrite Hload. unfold bind at 1.
    rewrite for_rows_diverges; [reflexivity | |].
    + repeat constructor.
    + apply Exists_cons_hd. exists 250%Q. split; [reflexivity | discriminate].
Qed.

(** ** Names: request values and files *)

Lemma replace_space_app (a b : string) :
  replace_space (a ++ b) = replace_space a ++ replace_space b.
Proof.
  induction a as [| c rest IH]; simpl; [reflexivity |].
  destruct (Ascii.eqb c " "%char); simpl; now rewrite IH.
Qed.

Lemma replace_space_fixed (s : string) :
  has_space s = false -> replace_space s = s.
Proof.
  induction s as [| c rest IH]; simpl; [reflexivity |].
  destruct (Ascii.eqb c " "%char); simpl; [discriminate |].
  intros H. now rewrite IH.
Qed.

(** X17. The replacement of spaces works piece by piece (the replacement
    of [a ++ b] is that of [a] followed by that of [b]), it leaves exactly
    the strings without a space as they are, and doing it again changes
    nothing. *)
Theorem replace_space_laws (a b : string) :
  replace_space (a ++ b) = replace_space a ++ replace_space b
  /\ (replace_space a = a <-> has_space a = false)
  /\ replace_space (replace_space a) = replace_space a.
Proof.
  split; [apply replace_space_app |]. split.
  - split.
    + intros H. rewrite <- H. apply replace_space_no_space.
    + apply replace_space_fixed.
  - apply replace_space_fixed, replace_space_no_space.
Qed.

Lemma lower_char_idem (c : ascii) : lower_char (lower_char c) = lower_char c.
Proof.
  destruct c as [[] [] [] [] [] [] [] []]; reflexivity.
Qed.

Lemma lower_idem (s : string) : lower (lower s) = lower s.
Proof.
  induction s as [| c rest IH]; simpl; [reflexivity |].
  now rewrite lower_char_idem, IH.
Qed.

Lemma append_length (a b : string) :
  String.length (a ++ b) = (String.length a + String.length b)%nat.
Proof. induction a as [| c rest IH]; simpl; [reflexivity | now rewrite IH]. Qed.

Lemma append_cancel_r (a b s : string) :
  String.length a = String.length b -> a ++ s = b ++ s -> a = b.
Proof.
  revert b. induction a as [| c rest IH]; intros [| d rest'] Hlen H;
    try discriminate; [reflexivity |].
  simpl in *. injection H as Hc Hrest. subst d. f_equal.
  apply IH; [lia | exact Hrest].
Qed.

(** X18. Two locations written in ASCII are saved under the same file name
    exactly when they agree up to the case of their letters; in particular
    a location and its lower-case form share their file. *)
Theorem csv_name_collisions (a b : string) :
  ascii_only a = true ->
  ascii_only b = true ->
  (csv_name a = csv_name b <-> lower a = lower b)
  /\ csv_name (lower a) = csv_name a.
Proof.
  intros _ _. split.
  - split.
    + unfold csv_name. intros H.
      apply (f_equal String.length) in H as Hlen.
      rewrite !append_length in Hlen.
      apply (append_cancel_r _ _ ".csv"); [lia |].
      cbn in H. now repeat (injection H as H).
    + unfold csv_name. now intros ->.
  - unfold csv_name. now rewrite lower_idem.
Qed.

(** * Worked instances *)

Example load_locations_df_sample :
  load_locations_df parse_decimal (Some Samples.catalog_file)
  = Ok (mkDF expected_columns
          [ [VStr "USA"; VStr "CA"; VNum 300; VNum 1; VNum 2; VNum 3];
            [VStr "USA"; VStr "TX"; VNum 250; VNum 1; VNum 2; VNum 3];
            [VStr "USA"; VStr "AK"; VNaN; VNum 1; VNum 2; VNum 3] ]).
Proof. reflexivity. Qed.

Example scrape_birthplaces_sample :
  scrape_birthplaces parse_decimal Samples.stats_site
                     (replace_space "United States") "CA" 200 []
  = Some (Ok (mkDF ["player"; "g"]
                [ [VStr "Tom Brady"; VNum 335]; [VNone; VNaN] ]),
          [EvGet (endpoint ++ "?country=United%20States&state=CA&offset=200")]).
Proof. reflexivity. Qed.

Example load_location_df_no_players :
  load_location_df parse_decimal Samples.stats_site 1
                   (location_record "USA" "GU" 0 0 0 0) []
  = Some (Ok empty_frame, [EvSleep 3]).
Proof. reflexivity. Qed.

Example load_location_df_out_of_fuel :
  load_location_df parse_decimal Samples.stats_site 1000
                   (location_record "USA" "TX" 250 1 2 3) []
  = None.
Proof. vm_compute. reflexivity. Qed.

(** C3: a file without the games column makes the loader raise; it does
    not return an empty frame. *)
Lemma loader_missing_column_counterexample :
  In "G" expected_columns
  /\ ~ In "G" (columns Samples.catalog_without_games)
  /\ ~ (exists df,
           load_locations_df parse_decimal (Some Samples.catalog_without_games)
           = Ok df).
Proof.
  split; [simpl; tauto |]. split.
  - simpl. intuition discriminate.
  - intros [df H]. vm_compute in H. discriminate.
Qed.

Lemma missing_column_raises_KeyError_witness :
  In "G" expected_columns
  /\ ~ In "G" (columns Samples.catalog_without_games)
  /\ load_locations_df parse_decimal (Some Samples.catalog_without_games)
     = Raise KeyError
  /\ load_locations_df parse_decimal None = Ok empty_frame.
Proof.
  assert (H1 : In "G" expected_columns) by (simpl; tauto).
  assert (H2 : ~ In "G" (columns Samples.catalog_without_games))
    by (simpl; intuition discriminate).
  split; [exact H1 |]. split; [exact H2 |].
  exact (missing_column_raises_KeyError
           parse_decimal Samples.catalog_without_games "G" H1 H2).
Defined.

Lemma error_status_gives_empty_frame_witness :
  scrape_birthplaces parse_decimal Samples.not_found "USA" "Texas" 200 []
  = Some (Ok empty_frame, [EvGet (build_url "USA" "Texas" 200)]).
Proof.
  apply (error_status_gives_empty_frame
           parse_decimal Samples.not_found "USA" "Texas" 200 404 None []);
    reflexivity.
Defined.

Lemma stats_table_well_formed :
  well_formed_table Samples.stats_table Samples.stats_header Samples.stats_body.
Proof.
  repeat split. vm_compute. repeat constructor.
Defined.

(** C5: the body has three rows, one of them a repeated header row; the
    scraped frame has two. *)
Lemma scraper_row_count_counterexample :
  well_formed_table Samples.stats_table Samples.stats_header Samples.stats_body
  /\ length Samples.stats_body = 3%nat
  /\ exists df tr',
       scrape_birthplaces parse_decimal Samples.stats_site "USA" "CA" 0 []
       = Some (Ok df, tr')
       /\ len df = 2%nat
       /\ len df <> length Samples.stats_body.
Proof.
  split; [apply stats_table_well_formed |]. split; [reflexivity |].
  eexists. eexists. split; [vm_compute; reflexivity |].
  split; [reflexivity | discriminate].
Qed.

Lemma scraped_rows_are_data_rows_witness :
  exists df,
    scrape_birthplaces parse_decimal Samples.stats_site "USA" "CA" 0 []
    = Some (Ok df, [EvGet (build_url "USA" "CA" 0)])
    /\ columns df = map header_label Samples.stats_header
    /\ len df = length (data_rows Samples.stats_body)
    /\ (forall i j r c,
           nth_error (data_rows Samples.stats_body) i = Some r ->
           nth_error (cells r) j = Some c ->
           extracted_text c = "" ->
           exists v, cell df i j = Some v /\ isna v = true)
    /\ (forall i j, cell df i j <> Some (VStr "")).
Proof.
  apply (scraped_rows_are_data_rows
           parse_decimal Samples.stats_site "USA" "CA" 0 200
           Samples.stats_table Samples.stats_header Samples.stats_body []).
  - reflexivity.
  - reflexivity.
  - apply stats_table_well_formed.
Defined.

Lemma non_numeric_string_becomes_absent_witness :
  exists df',
    clean_dataframe parse_decimal Samples.players = Ok df'
    /\ cell df' 1 1 = Some VNaN
    /\ isna VNaN = true.
Proof.
  apply (non_numeric_string_becomes_absent
           parse_decimal Samples.players "g" "n/a" 1 1).
  - reflexivity.
  - simpl. tauto.
  - reflexivity.
  - reflexivity.
  - reflexivity.
Defined.

Lemma clean_dataframe_frame_witness :
  exists df',
    clean_dataframe parse_decimal Samples.players = Ok df'
    /\ columns df' = columns Samples.players
    /\ len df' = len Samples.players
    /\ (forall i,
           nth_error (data df') i
           = option_map (coerce_row parse_decimal (columns Samples.players))
                        (nth_error (data Samples.players) i))
    /\ (forall i j c,
           nth_error (columns Samples.players) j = Some c ->
           ~ In c numeric_columns ->
           cell df' i j = cell Samples.players i j).
Proof.
  apply (clean_dataframe_frame parse_decimal Samples.players). reflexivity.
Defined.


Lemma clean_dataframe_idempotent_witness :
  clean_dataframe parse_decimal Samples.players = Ok Samples.players_cleaned
  /\ clean_dataframe parse_decimal Samples.players_cleaned
     = Ok Samples.players_cleaned.
Proof.
  split; [reflexivity |].
  apply (clean_dataframe_idempotent parse_decimal Samples.players).
  reflexivity.
Defined.

Lemma cleaned_numeric_columns_hold_numbers_witness :
  cell Samples.players_cleaned 1 1 = Some VNaN
  /\ numeric_or_nan VNaN = true.
Proof.
  split; [reflexivity |].
  apply (cleaned_numeric_columns_hold_numbers
           parse_decimal Samples.players Samples.players_cleaned 1 1 "g").
  - reflexivity.
  - reflexivity.
  - simpl. tauto.
  - reflexivity.
Defined.

Lemma nonempty_scrape_needs_full_table_witness :
  exists status t headers_row trs,
    Samples.stats_site (build_url "USA" "CA" 0) = Response status (Some t)
    /\ is_error_status status = false
    /\ thead t = Some (Some headers_row)
    /\ tbody t = Some trs
    /\ data_rows trs <> []
    /\ widest trs = length headers_row
    /\ labels_unique numeric_columns (map header_label headers_row) = true
    /\ columns Samples.stats_frame = map header_label headers_row
    /\ len Samples.stats_frame = length (data_rows trs).
Proof.
  apply (nonempty_scrape_needs_full_table
           parse_decimal Samples.stats_site "USA" "CA" 0 []
           [EvGet (build_url "USA" "CA" 0)] Samples.stats_frame).
  - reflexivity.
  - reflexivity.
Defined.

Lemma short_rows_are_filled_witness :
  exists df,
    scrape_birthplaces parse_decimal Samples.ragged_site "USA" "OH" 0 []
    = Some (Ok df, [EvGet (build_url "USA" "OH" 0)])
    /\ columns df = map header_label Samples.stats_header
    /\ len df = length (data_rows Samples.ragged_body)
    /\ (forall i j r,
           nth_error (data_rows Samples.ragged_body) i = Some r ->
           (length (cells r) <= j)%nat ->
           (j < length Samples.stats_header)%nat ->
           exists v, cell df i j = Some v /\ isna v = true).
Proof.
  apply (short_rows_are_filled
           parse_decimal Samples.ragged_site "USA" "OH" 0 200
           (mkTable (Some (Some Samples.stats_header))
                    (Some Samples.ragged_body))
           Samples.stats_header Samples.ragged_body []);
    reflexivity.
Defined.

Lemma width_mismatch_gives_empty_frame_witness :
  scrape_birthplaces parse_decimal Samples.wide_site "USA" "OH" 0 []
  = Some (Ok empty_frame, [EvGet (build_url "USA" "OH" 0)]).
Proof.
  apply (width_mismatch_gives_empty_frame
           parse_decimal Samples.wide_site "USA" "OH" 0 200
           (mkTable (Some (Some Samples.stats_header))
                    (Some Samples.wide_body))
           Samples.stats_header Samples.wide_body []).
  - reflexivity.
  - reflexivity.
  - reflexivity.
  - vm_compute. discriminate.
  - vm_compute. discriminate.
Defined.

Lemma repeated_numeric_header_gives_empty_frame_witness :
  scrape_birthplaces parse_decimal Samples.twin_site "USA" "OH" 0 []
  = Some (Ok empty_frame, [EvGet (build_url "USA" "OH" 0)]).
Proof.
  apply (repeated_numeric_header_gives_empty_frame
           parse_decimal Samples.twin_site "USA" "OH" 0 200
           (mkTable (Some (Some Samples.twin_header))
                    (Some Samples.wide_body))
           Samples.twin_header []);
    reflexivity.
Defined.

Lemma driver_never_fetches_witness :
  [EvSleep 3] = ([] ++ [EvSleep 3])%list
  /\ (Ok empty_frame = Ok empty_frame
      \/ Ok empty_frame = @Raise DataFrame TypeError).
Proof.
  apply (driver_never_fetches
           parse_decimal Samples.stats_site 1
           (location_record "USA" "GU" 0 0 0 0) [] [EvSleep 3]
           (Ok empty_frame)).
  reflexivity.
Defined.


Lemma loader_rows_are_catalog_rows_witness :
  columns Samples.catalog_sorted = expected_columns
  /\ (len Samples.catalog_sorted <= len Samples.catalog_file)%nat
  /\ Forall catalog_row (data Samples.catalog_sorted).
Proof.
  apply (loader_rows_are_catalog_rows
           parse_decimal Samples.catalog_file Samples.catalog_sorted).
  reflexivity.
Defined.

Lemma completed_batch_saves_empty_frame_witness :
  exists locations,
    load_locations_df parse_decimal (Some Samples.catalog_no_players)
    = Ok locations
    /\ [EvSleep 3; EvSleep 3;
        EvSave "./data/nfl_players_birthplaces_consolidated.csv" empty_frame]
       = ([] ++ repeat (EvSleep 3) (len locations)
             ++ [EvSave "./data/nfl_players_birthplaces_consolidated.csv"
                        empty_frame])%list.
Proof.
  apply (completed_batch_saves_empty_frame
           parse_decimal Samples.stats_site (Some Samples.catalog_no_players)
           5 []).
  reflexivity.
Defined.


Lemma batch_returns_on_unpopulated_catalog_witness :
  load_birthplaces parse_decimal Samples.stats_site
                   (Some Samples.catalog_no_players) 1 []
  = Some (Ok tt,
          ([] ++ repeat (EvSleep 3) (len Samples.catalog_no_players)
              ++ [EvSave "./data/nfl_players_birthplaces_consolidated.csv"
                         empty_frame])%list).
Proof.
  apply (batch_returns_on_unpopulated_catalog
           parse_decimal Samples.stats_site (Some Samples.catalog_no_players)
           Samples.catalog_no_players 0 []).
  - reflexivity.
  - repeat constructor;
      intros [q [Hq Hle]]; vm_compute in Hq; injection Hq as <-;
      apply Hle; reflexivity.
Defined.

Lemma batch_raises_on_missing_column_witness :
  load_birthplaces parse_decimal Samples.stats_site
                   (Some Samples.catalog_without_games) 5 []
  = Some (Raise KeyError, []).
Proof.
  apply (batch_raises_on_missing_column
           parse_decimal Samples.stats_site Samples.catalog_without_games
           "G" 5 []).
  - simpl. tauto.
  - simpl. intuition discriminate.
Defined.

Lemma csv_name_collisions_witness :
  (csv_name "USA_New York" = csv_name "usa_new york"
   <-> lower "USA_New York" = lower "usa_new york")
  /\ csv_name (lower "USA_New York") = csv_name "USA_New York".
Proof.
  apply (csv_name_collisions "USA_New York" "usa_new york"); reflexivity.
Defined.
